(** * did.py: issuing and verifying an Ethereum DID

    A shallow embedding of [create_ethereum_did] and [verify_did].

    - Python [str] is [string]; a character is a code point below 256.
    - Python [bytes] (and [HexBytes]) is [list byte].
    - The objects handled by [json.dumps] and passed around as [did_info] are
      values of the JSON data model; a [dict] is an association list in
      insertion order, which is the order [json.dumps] emits.
    - An exception is a [Raise] of the error monad [result].
    - Line 13 of the file leaves a parenthesis open: the module does not
      compile, and [create_ethereum_did] is what a call of it comes to, a
      [SyntaxError].  The statements of its body are kept apart
      ([create_ethereum_did_body]); the statements about the lines that are
      well formed are made on the definitions of those lines.
    - What the two functions call in [json], [hexbytes], [eth_utils] and
      [eth_account] is written out: [json.dumps], the hex conversions,
      [encode_defunct], the EIP-191 hash (Keccak-256), the EIP-55 rendering
      of an address and the length check on a signature.  Key generation and
      the curve operations are an interface ([EthAccount]) with its contract
      ([EthAccountLaws]). *)

From Stdlib Require Import List Strings.String Strings.Ascii Strings.Byte Bool Arith ZArith NArith Lia.
From Stdlib Require Import Numbers.DecimalString Strings.HexString.
From Stdlib Require Numbers.DecimalPos Numbers.DecimalZ.
From Stdlib Require Import Sorting.Permutation.
Import ListNotations.

Local Open Scope list_scope.
Local Open Scope string_scope.

Set Warnings "-register-all".

(** ** Values *)

Inductive value : Type :=
| VNone
| VBool (b : bool)
| VInt (n : Z)
| VStr (s : string)
| VList (l : list value)
| VDict (d : list (string * value)).

(** A Python [dict] with [str] keys, in insertion order. *)
Definition dict : Type := list (string * value).

(** ** Exceptions *)

Inductive exn : Type :=
| TypeError
| KeyError (k : string)
| AttributeError
| LibraryError    (* whatever eth_account, eth_keys, hexbytes or binascii raise,
                     of a class of their own or of Python's *)
| SyntaxError.    (* the module does not compile *)

Inductive result (A : Type) : Type :=
| Return (a : A)
| Raise (e : exn).

Arguments Return {A} a.
Arguments Raise {A} e.

Definition bind {A B : Type} (m : result A) (k : A -> result B) : result B :=
  match m with
  | Return a => k a
  | Raise e => Raise e
  end.

Notation "x <- m ;; k" := (bind m (fun x => k))
  (at level 61, m at next level, right associativity).

(** [d[k]]: the value stored under [k], [KeyError] when there is none. *)
Fixpoint lookup (k : string) (d : dict) : option value :=
  match d with
  | [] => None
  | (k', v) :: d' => if String.eqb k k' then Some v else lookup k d'
  end.

Definition getitem (d : dict) (k : string) : result value :=
  match lookup k d with
  | Some v => Return v
  | None => Raise (KeyError k)
  end.

Definition keys (d : dict) : list string := map fst d.

(** ** Characters and hexadecimal text *)

Definition dquote : ascii := "034"%char.
Definition backslash : ascii := "092"%char.

Definition hexdigit (n : N) : ascii :=
  match n with
  | 0 => "0" | 1 => "1" | 2 => "2" | 3 => "3" | 4 => "4" | 5 => "5"
  | 6 => "6" | 7 => "7" | 8 => "8" | 9 => "9" | 10 => "a" | 11 => "b"
  | 12 => "c" | 13 => "d" | 14 => "e" | _ => "f"
  end%N%char.

(** The value of a hexadecimal digit of either case ([binascii.unhexlify]). *)
Definition unhexdigit (c : ascii) : option N :=
  let n := N_of_ascii c in
  if ((48 <=? n) && (n <=? 57))%N then Some (n - 48)%N
  else if ((97 <=? n) && (n <=? 102))%N then Some (n - 87)%N
  else if ((65 <=? n) && (n <=? 70))%N then Some (n - 55)%N
  else None.

Definition is_hexdigit (c : ascii) : bool :=
  match unhexdigit c with Some _ => true | None => false end.

(** [bytes.hex()]: two lowercase digits per byte. *)
Fixpoint bytes_hex (b : list byte) : string :=
  match b with
  | [] => ""
  | x :: b' =>
      let n := Byte.to_N x in
      String (hexdigit (n / 16)) (String (hexdigit (n mod 16)) (bytes_hex b'))
  end.

(** [binascii.unhexlify] on text of even length. *)
Fixpoint unhexlify (s : string) : option (list byte) :=
  match s with
  | "" => Some []
  | String _ "" => None
  | String c1 (String c2 s') =>
      match unhexdigit c1, unhexdigit c2, unhexlify s' with
      | Some h, Some l, Some b' =>
          match Byte.of_N (16 * h + l) with
          | Some x => Some (x :: b')
          | None => None
          end
      | _, _, _ => None
      end
  end.

(** [s.startswith(p)] *)
Fixpoint startswith (p s : string) : bool :=
  match p, s with
  | "", _ => true
  | String _ _, "" => false
  | String a p', String b s' => Ascii.eqb a b && startswith p' s'
  end.

(** [hexbytes._utils.hexstr_to_bytes]: an optional [0x] or [0X], a zero in
    front of an odd number of digits, then [unhexlify]. *)
Definition hexstr_to_bytes (hexstr : string) : option (list byte) :=
  let non_prefixed_hex :=
    if startswith "0x" hexstr || startswith "0X" hexstr
    then String.substring 2 (String.length hexstr - 2) hexstr
    else hexstr in
  let padded_hex :=
    if Nat.odd (String.length hexstr)
    then String "0" non_prefixed_hex
    else non_prefixed_hex in
  unhexlify padded_hex.

(** [hexbytes._utils.to_bytes], the conversion behind [HexBytes(val)]; an
    exception it raises, of whichever class, is [LibraryError] here. *)
Definition HexBytes (val : value) : result (list byte) :=
  match val with
  | VStr s =>
      match hexstr_to_bytes s with
      | Some b => Return b
      | None => Raise LibraryError
      end
  | VBool b => Return [if b then x01 else x00]
  | VInt n =>
      if (n <? 0)%Z then Raise LibraryError
      else match hexstr_to_bytes (HexString.of_Z n) with
           | Some b => Return b
           | None => Raise LibraryError
           end
  | VNone | VList _ | VDict _ => Raise LibraryError
  end.

(** ** [str.lower] *)

(** Code points below 256 with a lowercase form: [A]-[Z], and the capital
    letters of Latin-1 (192-222 without the multiplication sign 215). *)
Definition lower_char (c : ascii) : ascii :=
  let n := N_of_ascii c in
  if ((65 <=? n) && (n <=? 90))%N then ascii_of_N (n + 32)
  else if ((192 <=? n) && (n <=? 222) && negb (n =? 215))%N then ascii_of_N (n + 32)
  else c.

Fixpoint lower (s : string) : string :=
  match s with
  | "" => ""
  | String c s' => String (lower_char c) (lower s')
  end.

(** [str.upper] where it undoes [str.lower]: the capital letter of a small
    one, any other character as it is.  On the digits of an address, the only
    text it is applied to, this is [str.upper]. *)
Definition upper_char (c : ascii) : ascii :=
  let n := N_of_ascii c in
  if ((97 <=? n) && (n <=? 122))%N then ascii_of_N (n - 32)
  else if ((224 <=? n) && (n <=? 254) && negb (n =? 247))%N then ascii_of_N (n - 32)
  else c.

(** [obj.lower()] on a value: only a [str] has the method. *)
Definition lower_method (v : value) : result string :=
  match v with
  | VStr s => Return (lower s)
  | _ => Raise AttributeError
  end.

(** ** [json.dumps] with its defaults *)

Definition hex4 (n : N) : string :=
  String (hexdigit (n / 4096)) (String (hexdigit ((n / 256) mod 16))
    (String (hexdigit ((n / 16) mod 16)) (String (hexdigit (n mod 16)) ""))).

(** [json.encoder.py_encode_basestring_ascii], one character. *)
Definition escape_char (c : ascii) : string :=
  let n := N_of_ascii c in
  if (n =? 34)%N then String backslash (String dquote "")
  else if (n =? 92)%N then String backslash (String backslash "")
  else if (n =? 8)%N then String backslash "b"
  else if (n =? 12)%N then String backslash "f"
  else if (n =? 10)%N then String backslash "n"
  else if (n =? 13)%N then String backslash "r"
  else if (n =? 9)%N then String backslash "t"
  else if ((n <? 32) || (126 <? n))%N then String backslash (String "u" (hex4 n))
  else String c "".

Fixpoint escape (s : string) : string :=
  match s with
  | "" => ""
  | String c s' => escape_char c ++ escape s'
  end.

Definition encode_basestring_ascii (s : string) : string :=
  String dquote (escape s ++ String dquote "").

(** [sep.join(parts)] *)
Fixpoint join (sep : string) (parts : list string) : string :=
  match parts with
  | [] => ""
  | [p] => p
  | p :: rest => p ++ sep ++ join sep rest
  end.

Definition int_repr (n : Z) : string := NilZero.string_of_int (Z.to_int n).

(** [json.dumps(obj)]: item separator [", "], key separator [": "], ASCII
    output, keys in insertion order (no [sort_keys]).  Python refuses to
    write an [int] of more than 4300 digits ([ValueError]); the statements
    that depend on it are made of the values of [small_ints]. *)
Fixpoint dumps (v : value) : string :=
  match v with
  | VNone => "null"
  | VBool true => "true"
  | VBool false => "false"
  | VInt n => int_repr n
  | VStr s => encode_basestring_ascii s
  | VList l => "[" ++ join ", " (map dumps l) ++ "]"
  | VDict d =>
      "{" ++ join ", "
               (map (fun kv => encode_basestring_ascii (fst kv) ++ ": " ++ dumps (snd kv)) d)
          ++ "}"
  end.

(** ** [eth_account.messages.encode_defunct] *)

Record SignableMessage : Type := {
  version : list byte;
  header : list byte;
  body : list byte
}.

(** [text.encode("utf-8")] for code points below 256. *)
Definition utf8_char (c : ascii) : list byte :=
  let n := N_of_ascii c in
  if (n <? 128)%N then [byte_of_ascii c]
  else [byte_of_ascii (ascii_of_N (192 + n / 64)); byte_of_ascii (ascii_of_N (128 + n mod 64))].

Fixpoint utf8 (s : string) : list byte :=
  match s with
  | "" => []
  | String c s' => (utf8_char c ++ utf8 s')%list
  end.

Definition str_of_nat (n : nat) : string := NilZero.string_of_uint (Nat.to_uint n).

Definition newline : ascii := "010"%char.

Definition encode_defunct (text : string) : SignableMessage :=
  let message_bytes := utf8 text in
  let msg_length := utf8 (str_of_nat (List.length message_bytes)) in
  {| version := utf8 "E";
     header := (utf8 ("thereum Signed Message:" ++ String newline "") ++ msg_length)%list;
     body := message_bytes |}.

(** ** Keccak-256 ([eth_utils.keccak])

    The state is the 25 lanes of 64 bits, lane [(x, y)] at index [x + 5 y]. *)

Definition mask64 : N := 0xFFFFFFFFFFFFFFFF%N.

Definition rotl64 (z n : N) : N :=
  N.land (N.lor (N.shiftl z n) (N.shiftr z (64 - n))) mask64.

Definition rotation_offsets : list N :=
  [  0;  1; 62; 28; 27;
    36; 44;  6; 55; 20;
     3; 10; 43; 25; 39;
    41; 45; 15; 21;  8;
    18;  2; 61; 56; 14 ]%N.

Definition round_constants : list N :=
  [ 0x0000000000000001; 0x0000000000008082; 0x800000000000808A; 0x8000000080008000;
    0x000000000000808B; 0x0000000080000001; 0x8000000080008081; 0x8000000000008009;
    0x000000000000008A; 0x0000000000000088; 0x0000000080008009; 0x000000008000000A;
    0x000000008000808B; 0x800000000000008B; 0x8000000000008089; 0x8000000000008003;
    0x8000000000008002; 0x8000000000000080; 0x000000000000800A; 0x800000008000000A;
    0x8000000080008081; 0x8000000000008080; 0x0000000080000001; 0x8000000080008008 ]%N.

Definition lane (A : list N) (x y : nat) : N := nth (x mod 5 + 5 * y) A 0%N.

Definition theta (A : list N) : list N :=
  let C := map (fun x => fold_right N.lxor 0%N (map (lane A x) (seq 0 5))) (seq 0 5) in
  let D := map (fun x => N.lxor (nth ((x + 4) mod 5) C 0%N)
                                (rotl64 (nth ((x + 1) mod 5) C 0%N) 1)) (seq 0 5) in
  map (fun i => N.lxor (nth i A 0%N) (nth (i mod 5) D 0%N)) (seq 0 25).

Definition rho_pi (A : list N) : list N :=
  map (fun i => let X := i mod 5 in
                let Y := i / 5 in
                let x := (X + 3 * Y) mod 5 in
                rotl64 (lane A x X) (nth (x + 5 * X) rotation_offsets 0%N)) (seq 0 25).

Definition chi (B : list N) : list N :=
  map (fun i => let x := i mod 5 in
                let y := i / 5 in
                N.lxor (lane B x y)
                       (N.land (N.lxor (lane B (x + 1) y) mask64) (lane B (x + 2) y)))
      (seq 0 25).

Definition iota (rc : N) (A : list N) : list N :=
  match A with
  | a :: A' => N.lxor a rc :: A'
  | [] => []
  end.

Definition keccak_round (A : list N) (rc : N) : list N :=
  iota rc (chi (rho_pi (theta A))).

Definition keccak_f (A : list N) : list N := fold_left keccak_round round_constants A.

Fixpoint le_to_N (b : list byte) : N :=
  match b with
  | [] => 0
  | x :: b' => Byte.to_N x + 256 * le_to_N b'
  end%N.

Definition byte_of_N (n : N) : byte := byte_of_ascii (ascii_of_N n).

(** The 17 lanes of a block of 136 bytes. *)
Definition block_lanes (block : list byte) : list N :=
  map (fun j => le_to_N (firstn 8 (skipn (8 * j) block))) (seq 0 17).

Fixpoint xor_lanes (A L : list N) : list N :=
  match A, L with
  | a :: A', l :: L' => N.lxor a l :: xor_lanes A' L'
  | _, _ => A
  end.

Fixpoint absorb (fuel : nat) (A : list N) (m : list byte) : list N :=
  match fuel, m with
  | S fuel', _ :: _ =>
      absorb fuel' (keccak_f (xor_lanes A (block_lanes (firstn 136 m)))) (skipn 136 m)
  | _, _ => A
  end.

(** The padding of a message of [n] bytes: [01], zeros, [80]. *)
Definition pad (n : nat) : list byte :=
  let q := (136 - n mod 136)%nat in
  if (q =? 1)%nat then [x81] else (x01 :: repeat x00 (q - 2) ++ [x80])%list.

Definition squeeze (A : list N) : list byte :=
  map (fun k => byte_of_N ((nth (k / 8) A 0 / 2 ^ (8 * N.of_nat (k mod 8))) mod 256)%N)
      (seq 0 32).

Definition keccak256 (m : list byte) : list byte :=
  let p := (m ++ pad (List.length m))%list in
  squeeze (absorb (List.length p) (repeat 0%N 25) p).

(** [eth_account]'s [_hash_eip191_message]. *)
Definition hash_eip191 (m : SignableMessage) : list byte :=
  keccak256 (x19 :: version m ++ header m ++ body m)%list.

(** ** [eth_utils.to_checksum_address] (EIP-55) *)

Definition nibble (c : ascii) : N :=
  match unhexdigit c with Some n => n | None => 0%N end.

(** A letter of the address is a capital when the digit of the hash at its
    position is above 7. *)
Fixpoint checksum_case (norm hash : string) : string :=
  match norm, hash with
  | String c norm', String h hash' =>
      String (if (7 <? nibble h)%N then upper_char c else c) (checksum_case norm' hash')
  | _, _ => norm
  end.

(** The rendering of the 20 bytes of an address. *)
Definition to_checksum_address (raw : list byte) : string :=
  let norm := bytes_hex raw in
  let address_hash := bytes_hex (keccak256 (utf8 norm)) in
  "0x" ++ checksum_case norm address_hash.

(** ** The interface of [eth_account] *)

(** What [Account.create()] returns: [acct.key] and [acct.address]. *)
Record LocalAccount : Type := {
  key : list byte;
  address : string
}.

(** The part of the library that is not written out here.
    - [key_hex_prefixed], [signature_hex_prefixed]: whether [acct.key.hex()]
      and [signed.signature.hex()] start with [0x]; [bytes.hex()] does not,
      [HexBytes.hex()] does before hexbytes 1.0 and does not from 1.0 on;
    - [generate_key]: the private key [Account.create()] makes from the
      bytes of [os.urandom(32)];
    - [public_address]: the 20 bytes of the address of a private key;
    - [ecdsa_sign]: the 65 bytes [r || s || v] of the signature of a 32-byte
      hash, [None] when the key is refused;
    - [ecdsa_recover]: the 20 bytes of the address of the key that signed a
      hash, from the 65 bytes of a signature, [None] when recovery fails. *)
Class EthAccount : Type := {
  key_hex_prefixed : bool;
  signature_hex_prefixed : bool;
  generate_key : list byte -> list byte;
  public_address : list byte -> list byte;
  ecdsa_sign : list byte -> list byte -> option (list byte);
  ecdsa_recover : list byte -> list byte -> option (list byte)
}.

(** The contract of the library: a generated key is 32 bytes, its address 20
    bytes, and a signature made with it over a 32-byte hash is 65 bytes from
    which [ecdsa_recover] gives back its address. *)
Class EthAccountLaws (E : EthAccount) : Prop := {
  key_length :
    forall urandom, List.length (generate_key urandom) = 32%nat;
  address_length :
    forall urandom, List.length (public_address (generate_key urandom)) = 20%nat;
  sign_recover :
    forall urandom h,
    List.length h = 32%nat ->
    exists sig,
      ecdsa_sign h (generate_key urandom) = Some sig
      /\ List.length sig = 65%nat
      /\ ecdsa_recover h sig = Some (public_address (generate_key urandom))
}.

(** ** The module as the file has it *)

(** Line 13. *)
Definition line_13 : string :=
  "    w3 = Web3(Web3.HTTPProvider('https://mainnet.optimism.io')".

(** The brackets a line leaves open; what stands between quotes is text. *)
Fixpoint open_brackets (quote : option ascii) (depth : nat) (s : string) : nat :=
  match s with
  | "" => depth
  | String c s' =>
      match quote with
      | Some q => open_brackets (if Ascii.eqb c q then None else quote) depth s'
      | None =>
          if Ascii.eqb c "'" || Ascii.eqb c dquote
          then open_brackets (Some c) depth s'
          else if Ascii.eqb c "(" || Ascii.eqb c "[" || Ascii.eqb c "{"
          then open_brackets None (S depth) s'
          else if Ascii.eqb c ")" || Ascii.eqb c "]" || Ascii.eqb c "}"
          then open_brackets None (Nat.pred depth) s'
          else open_brackets None depth s'
      end
  end.

(** Python compiles a module before it runs any of it.  A line that leaves
    a bracket open goes on into the next one that is not blank; that one,
    line 15, begins with the name [did], which cannot follow the complete
    argument before it, and no later line closes the bracket. *)
Definition compile_did_py : result unit :=
  if (open_brackets None 0 line_13 =? 0)%nat then Return tt else Raise SyntaxError.

(** ** did.py *)

Section Did.

Context {E : EthAccount}.

(** [acct.key.hex()] and [signed.signature.hex()] *)
Definition key_hex (b : list byte) : string :=
  (if key_hex_prefixed then "0x" else "") ++ bytes_hex b.

Definition signature_hex (b : list byte) : string :=
  (if signature_hex_prefixed then "0x" else "") ++ bytes_hex b.

(** [Account.create()] on the bytes of [os.urandom(32)]. *)
Definition Account_create (urandom : list byte) : LocalAccount :=
  let k := generate_key urandom in
  {| key := k; address := to_checksum_address (public_address k) |}.

(** [Account.sign_message(signable, private_key)] with the key given as text;
    the result is [signed.signature]. *)
Definition sign_message (signable : SignableMessage) (private_key : string)
  : result (list byte) :=
  let message_hash := hash_eip191 signable in
  k <- HexBytes (VStr private_key) ;;
  match ecdsa_sign message_hash k with
  | Some sig => Return sig
  | None => Raise LibraryError
  end.

(** [Account.recover_message(signable, signature=...)]: the signature is
    converted by [HexBytes], must be 65 bytes, and goes to recovery; the
    address comes back in its EIP-55 rendering. *)
Definition recover_message (signable : SignableMessage) (signature : value)
  : result string :=
  let message_hash := hash_eip191 signable in
  sig <- HexBytes signature ;;
  if (List.length sig =? 65)%nat then
    match ecdsa_recover message_hash sig with
    | Some raw => Return (to_checksum_address raw)
    | None => Raise LibraryError
    end
  else Raise LibraryError.

(** [obj[k]]: only a [dict] can be subscripted with a [str]. *)
Definition subscript (obj : value) (k : string) : result value :=
  match obj with
  | VDict d => getitem d k
  | _ => Raise TypeError
  end.

(** Line 15: [did = f"did:ethr:optimism:{address}"]. *)
Definition did_of (address : string) : string := "did:ethr:optimism:" ++ address.

(** Lines 17-22. *)
Definition verification_method (address : string) : dict :=
  let did := did_of address in
  [ ("id", VStr (did ++ "#controller"));
    ("type", VStr "EcdsaSecp256k1RecoveryMethod2020");
    ("controller", VStr did);
    ("blockchainAccountId", VStr ("eip155:10:" ++ address)) ].

(** Lines 25-34; [verification_method["id"]] is read back from the dict. *)
Definition did_document (address : string) : result dict :=
  let did := did_of address in
  let vm := verification_method address in
  vm_id1 <- getitem vm "id" ;;
  vm_id2 <- getitem vm "id" ;;
  Return
    [ ("@context", VList [ VStr "https://www.w3.org/ns/did/v1";
                           VStr "https://w3id.org/security/suites/secp256k1recovery-2020/v2" ]);
      ("id", VStr did);
      ("verificationMethod", VList [VDict vm]);
      ("authentication", VList [vm_id1]);
      ("assertionMethod", VList [vm_id2]) ].

(** Lines 36-37: the text that is signed. *)
Definition message_of (doc : dict) : string := dumps (VDict doc).

(** The [did_document] of the run on [urandom]. *)
Definition document_of_run (urandom : list byte) : dict :=
  match did_document (address (Account_create urandom)) with
  | Return d => d
  | Raise _ => []
  end.

(** Lines 41-47: the dict that is returned. *)
Definition bundle_of (did : string) (did_document : dict)
  (private_key address signature : string) : value :=
  VDict
    [ ("did", VStr did);
      ("did_document", VDict did_document);
      ("private_key", VStr private_key);
      ("address", VStr address);
      ("signature", VStr signature) ].

(** The statements of [create_ethereum_did], lines 9-47, in the order they
    are written, run on the bytes [os.urandom] hands to [Account.create()].
    Line 13 is to bind [w3], through which line 39 reaches [Account]. *)
Definition create_ethereum_did_body (urandom : list byte) : result value :=
  let acct := Account_create urandom in
  let private_key := key_hex (key acct) in
  let address := address acct in
  let did := did_of address in
  did_document <- did_document address ;;
  let message := message_of did_document in
  let message_hash := encode_defunct message in
  signature <- sign_message message_hash private_key ;;
  Return (bundle_of did did_document private_key address (signature_hex signature)).

(** [create_ethereum_did()] as the module has it: the module is compiled
    before the function can be called, and line 13 stops the compiler. *)
Definition create_ethereum_did (urandom : list byte) : result value :=
  _ <- compile_did_py ;;
  create_ethereum_did_body urandom.

(** A call with positional arguments of the function line 7 declares,
    [def create_ethereum_did():].  It takes none, and arguments are bound
    before any statement of the body. *)
Definition create_ethereum_did_call (args : list value) (urandom : list byte)
  : result value :=
  match args with
  | [] => create_ethereum_did urandom
  | _ :: _ => Raise TypeError
  end.

(** [verify_did(did_info)], lines 49-59. *)
Definition verify_did (did_info : value) : result bool :=
  doc <- subscript did_info "did_document" ;;
  let message := dumps doc in
  let message_hash := encode_defunct message in
  signature <- subscript did_info "signature" ;;
  recovered_address <- recover_message message_hash signature ;;
  let recovered_lower := lower recovered_address in
  expected <- subscript did_info "address" ;;
  expected_lower <- lower_method expected ;;
  Return (String.eqb recovered_lower expected_lower).

End Did.

(** ** [main], lines 62-80 *)

Definition spaces (level : nat) : string := String.concat "" (repeat "  " level).

(** The line break and indentation [json.dumps(..., indent=2)] puts before
    an item at nesting depth [level]. *)
Definition newline_indent (level : nat) : string := String newline (spaces level).

(** [json.dumps(obj, indent=2)]: item separator [","], key separator [": "],
    every item of a list or dict on a line of its own, an empty list or dict
    as [[]] or [{}]. *)
Fixpoint dumps_indent (level : nat) (v : value) : string :=
  match v with
  | VNone => "null"
  | VBool true => "true"
  | VBool false => "false"
  | VInt n => int_repr n
  | VStr s => encode_basestring_ascii s
  | VList l =>
      match l with
      | [] => "[]"
      | _ :: _ =>
          "[" ++ newline_indent (S level)
              ++ join ("," ++ newline_indent (S level)) (map (dumps_indent (S level)) l)
              ++ newline_indent level ++ "]"
      end
  | VDict d =>
      match d with
      | [] => "{}"
      | _ :: _ =>
          "{" ++ newline_indent (S level)
              ++ join ("," ++ newline_indent (S level))
                   (map (fun kv => encode_basestring_ascii (fst kv) ++ ": "
                                   ++ dumps_indent (S level) (snd kv)) d)
              ++ newline_indent level ++ "}"
      end
  end.

(** What a run has printed, one text for each call of [print], and its
    result or the exception that ended it. *)
Definition out (A : Type) : Type := (list string * result A)%type.

Definition print (text : string) : out unit := ([text], Return tt).

Definition lift {A : Type} (r : result A) : out A := ([], r).

Definition bind_out {A B : Type} (m : out A) (k : A -> out B) : out B :=
  match m with
  | (printed, Return a) => let (more, r) := k a in ((printed ++ more)%list, r)
  | (printed, Raise e) => (printed, Raise e)
  end.

Notation "x <~ m ;; k" := (bind_out m (fun x => k))
  (at level 61, m at next level, right associativity).

Section Main.

Context {E : EthAccount}.

(** Two texts the model leaves open: [repr(v)] of a value that is no [str],
    and [str(e)] of an exception. *)
Variable repr : value -> string.
Variable exn_message : exn -> string.

(** A value inside an f-string: [str(v)]. *)
Definition format (v : value) : string :=
  match v with
  | VStr s => s
  | _ => repr v
  end.

(** The body of the [try], lines 64-76; [created] is what the call of
    [create_ethereum_did] at line 65 comes to. *)
Definition main_try (created : result value) : out value :=
  did_info <~ lift created ;;
  did <~ lift (subscript did_info "did") ;;
  _ <~ print ("Created DID: " ++ format did) ;;
  address <~ lift (subscript did_info "address") ;;
  _ <~ print ("Ethereum Address: " ++ format address) ;;
  _ <~ print (String newline "DID Document:") ;;
  did_document <~ lift (subscript did_info "did_document") ;;
  _ <~ print (dumps_indent 0 did_document) ;;
  is_valid <~ lift (verify_did did_info) ;;
  _ <~ print (String newline "DID Verification: "
                ++ (if is_valid : bool then "Success" else "Failed")) ;;
  lift (Return did_info).

(** [main()]: what it prints and what it returns, [None] after the
    [except] of lines 78-80. *)
Definition main (created : result value) : list string * option value :=
  match main_try created with
  | (printed, Return did_info) => (printed, Some did_info)
  | (printed, Raise e) =>
      (List.app printed [String.append "Error creating DID: " (exn_message e)], None)
  end.

End Main.

(** ** Notions the statements below use *)

(** The text after the last colon of [s] (all of [s] when it has none). *)
Fixpoint has_colon (s : string) : bool :=
  match s with
  | "" => false
  | String c s' => Ascii.eqb c ":" || has_colon s'
  end.

Fixpoint after_last_colon (s : string) : string :=
  match s with
  | "" => ""
  | String c s' =>
      if has_colon s' then after_last_colon s'
      else if Ascii.eqb c ":" then s' else s
  end.

(** Every character of [s] passes [p]. *)
Fixpoint all_chars (p : ascii -> bool) (s : string) : bool :=
  match s with
  | "" => true
  | String c s' => p c && all_chars p s'
  end.

(** [0x] followed by forty hexadecimal digits of either case. *)
Definition is_hex_address (a : string) : bool :=
  match a with
  | String "0" (String "x" digits) =>
      (String.length digits =? 40)%nat && all_chars is_hexdigit digits
  | _ => false
  end.

(** A printable character of ASCII, from the space to the tilde. *)
Definition is_printable (c : ascii) : bool :=
  let n := N_of_ascii c in ((32 <=? n) && (n <=? 126))%N.

Definition is_digit (c : ascii) : bool :=
  let n := N_of_ascii c in ((48 <=? n) && (n <=? 57))%N.

Definition starts_with_digit (s : string) : bool :=
  match s with
  | String c _ => is_digit c
  | "" => false
  end.

(** The character at the head of escaped text, and the text after it: what
    [escape_char] wrote is read back. *)
Definition unescape_head (s : string) : option (ascii * string) :=
  match s with
  | "" => None
  | String c s1 =>
      if Ascii.eqb c backslash then
        match s1 with
        | String "u" (String h1 (String h2 (String h3 (String h4 s2)))) =>
            Some (ascii_of_N (4096 * nibble h1 + 256 * nibble h2
                              + 16 * nibble h3 + nibble h4), s2)
        | String e s2 =>
            Some ((if Ascii.eqb e "b" then "008"
                   else if Ascii.eqb e "f" then "012"
                   else if Ascii.eqb e "n" then "010"
                   else if Ascii.eqb e "r" then "013"
                   else if Ascii.eqb e "t" then "009"
                   else e)%char, s2)
        | "" => None
        end
      else Some (c, s1)
  end.

(** The characters the text of a value can begin with. *)
Definition value_head (v : value) (c : ascii) : bool :=
  match v with
  | VNone => Ascii.eqb c "n"
  | VBool true => Ascii.eqb c "t"
  | VBool false => Ascii.eqb c "f"
  | VInt _ => Ascii.eqb c "-" || is_digit c
  | VStr _ => Ascii.eqb c dquote
  | VList _ => Ascii.eqb c "["
  | VDict _ => Ascii.eqb c "{"
  end.

(** Text that [str.lower] leaves as it is. *)
Definition is_lower (s : string) : bool := String.eqb (lower s) s.

(** The letters: each capital with its small letter. *)
Definition capital_letters : string := "ABCDEFGHIJKLMNOPQRSTUVWXYZ".
Definition small_letters : string := "abcdefghijklmnopqrstuvwxyz".

Definition letters : list (ascii * ascii) :=
  combine (list_ascii_of_string capital_letters) (list_ascii_of_string small_letters).

(** The same character, or the capital and the small form of one letter. *)
Definition same_letter (x y : ascii) : bool :=
  Ascii.eqb x y
  || existsb (fun p => (Ascii.eqb x (fst p) && Ascii.eqb y (snd p))
                       || (Ascii.eqb x (snd p) && Ascii.eqb y (fst p))) letters.

(** Two texts of one length that differ, position by position, in the case
    of a letter at most. *)
Fixpoint caseless_eqb (a b : string) : bool :=
  match a, b with
  | "", "" => true
  | String x a', String y b' => same_letter x y && caseless_eqb a' b'
  | _, _ => false
  end.

(** A character of ASCII, and all of them. *)
Definition is_ascii (c : ascii) : bool := (N_of_ascii c <? 128)%N.

Definition ascii_chars : list ascii := map ascii_of_nat (seq 0 128).

(** A digit as [bytes.hex()] writes it: a digit that [str.lower] keeps. *)
Definition is_small_hexdigit (c : ascii) : bool :=
  is_hexdigit c && Ascii.eqb (lower_char c) c.

(** Whether [k] is a key of [v] or of a dict anywhere inside [v]. *)
Fixpoint mentions_key (k : string) (v : value) : bool :=
  match v with
  | VList l => existsb (mentions_key k) l
  | VDict d => existsb (fun kv => String.eqb k (fst kv) || mentions_key k (snd kv)) d
  | _ => false
  end.

(** The fields of an identity document, in the order of lines 25-34. *)
Definition document_fields : list string :=
  ["@context"; "id"; "verificationMethod"; "authentication"; "assertionMethod"].

(** The same value under each of the five fields. *)
Definition same_fields (d1 d2 : dict) : Prop :=
  forall k, In k document_fields -> lookup k d1 = lookup k d2.

(** A dict with the five fields and no other key, in whatever order. *)
Definition has_document_fields (d : dict) : Prop :=
  Permutation (keys d) document_fields.

(** Every [int] inside [v] has at most 4300 digits, the most Python turns
    into text. *)
Fixpoint small_ints (v : value) : bool :=
  match v with
  | VInt n => (Z.abs n <? 10 ^ 4300)%Z
  | VList l => forallb small_ints l
  | VDict d => forallb (fun kv => small_ints (snd kv)) d
  | _ => true
  end.

(** The [id] of every method of a [verificationMethod] list. *)
Definition method_ids (methods : list value) : list value :=
  flat_map (fun m => match m with
                     | VDict d => match lookup "id" d with Some i => [i] | None => [] end
                     | _ => []
                     end) methods.

(** One verification method, named [<did>#controller] and controlled by the
    document's own DID, and no reference to a method that is not there. *)
Definition document_invariant (doc : dict) : Prop :=
  exists did vm auth asrt,
    lookup "id" doc = Some (VStr did)
    /\ lookup "verificationMethod" doc = Some (VList [VDict vm])
    /\ lookup "id" vm = Some (VStr (did ++ "#controller"))
    /\ lookup "controller" vm = Some (VStr did)
    /\ lookup "authentication" doc = Some (VList auth)
    /\ lookup "assertionMethod" doc = Some (VList asrt)
    /\ incl (auth ++ asrt)%list (method_ids [VDict vm]).

(** A signature that [HexBytes] refuses or that is not 65 bytes long. *)
Definition malformed_signature (signature : value) : Prop :=
  match HexBytes signature with
  | Return b => List.length b <> 65%nat
  | Raise _ => True
  end.

(** ** An instance of the interface

    Three keys whose address is public knowledge stand for key generation;
    a signature carries the key, the hash and the byte 27.  Recovery gives
    the address of the key on the hash that was signed and another address
    on any other hash, and fails when the last byte is none of 0, 1, 27, 28.
    It shows that the contract can be met and gives the statements below
    something to run on. *)

Definition unhex (s : string) : list byte :=
  match hexstr_to_bytes s with Some b => b | None => [] end.

Definition known_keys : list (list byte * list byte) :=
  [ (unhex "b25c7db31feed9122727bf0939dc769a96564b2de4c4726d035b36ecf1e5b364",
     unhex "5ce9454909639d2d17a3f753ce7d93fa0b9ab12e");
    (unhex "4c0883a69102937d6231471b5dbb6204fe5129617082792ae468d01a3f362318",
     unhex "2c7536e3605d9c16a7a3d7b1898e529396a65c23");
    (unhex "0000000000000000000000000000000000000000000000000000000000000001",
     unhex "7e5f4552091a69125d5dfcb7b8c2659029395bdf") ].

Definition byte_sum (b : list byte) : N :=
  fold_right (fun x acc => ((Byte.to_N x + acc) mod 256)%N) 0%N b.

Fixpoint bytes_eqb (a b : list byte) : bool :=
  match a, b with
  | [], [] => true
  | x :: a', y :: b' => Byte.eqb x y && bytes_eqb a' b'
  | _, _ => false
  end.

Definition table_key (urandom : list byte) : list byte :=
  fst (nth (N.to_nat (byte_sum urandom mod 3)) known_keys (repeat x01 32, repeat x00 20)).

Definition table_address (k : list byte) : list byte :=
  match find (fun p => bytes_eqb (fst p) k) known_keys with
  | Some p => snd p
  | None => repeat x00 20
  end.

Definition table_sign (h k : list byte) : option (list byte) :=
  if (List.length k =? 32)%nat then Some (k ++ h ++ [x1b])%list else None.

Definition table_recover (h sig : list byte) : option (list byte) :=
  if existsb (fun v => bytes_eqb (skipn 64 sig) [v]) [x00; x01; x1b; x1c] then
    if bytes_eqb (firstn 32 (skipn 32 sig)) h
    then Some (table_address (firstn 32 sig))
    else Some (firstn 20 h)
  else None.

Definition TableAccount : EthAccount := {|
  key_hex_prefixed := false;
  signature_hex_prefixed := true;
  generate_key := table_key;
  public_address := table_address;
  ecdsa_sign := table_sign;
  ecdsa_recover := table_recover
|}.

Definition urandom0 : list byte := repeat x00 32.

(** The document of [0x1111111111111111111111111111111111111111] with its
    first two keys inserted the other way round. *)
Definition ones_address : string := "0x1111111111111111111111111111111111111111".

Definition ones_document : dict :=
  match did_document ones_address with Return d => d | Raise _ => [] end.

Definition ones_document_swapped : dict :=
  match ones_document with
  | c :: i :: rest => i :: c :: rest
  | d => d
  end.

(** A bundle for the table instance: the document of lines 25-34 for the
    account of [urandom0], and the signature of its serialization. *)
Definition table_signature : list byte :=
  match table_sign
          (hash_eip191 (encode_defunct
             (message_of (document_of_run (E := TableAccount) urandom0))))
          (table_key urandom0) with
  | Some sig => sig
  | None => []
  end.

Definition table_bundle : value :=
  bundle_of
    (did_of (address (Account_create (E := TableAccount) urandom0)))
    (document_of_run (E := TableAccount) urandom0)
    (key_hex (E := TableAccount) (table_key urandom0))
    (address (Account_create (E := TableAccount) urandom0))
    (signature_hex (E := TableAccount) table_signature).

Definition field (k : string) (bundle : value) : value :=
  match bundle with
  | VDict d => match lookup k d with Some v => v | None => VNone end
  | _ => VNone
  end.

(** The stored address in small letters. *)
Definition lowercase_bundle : value :=
  VDict [ ("did_document", field "did_document" table_bundle);
          ("signature", field "signature" table_bundle);
          ("address", VStr "0x5ce9454909639d2d17a3f753ce7d93fa0b9ab12e") ].

(** A signature that is no hexadecimal text. *)
Definition garbled_bundle : value :=
  VDict [ ("did_document", field "did_document" table_bundle);
          ("signature", VStr "zz");
          ("address", field "address" table_bundle) ].

(** The three fields [verify_did] reads, and a field of no concern. *)
Definition public_bundle : value :=
  VDict [ ("note", VInt 7);
          ("address", field "address" table_bundle);
          ("signature", field "signature" table_bundle);
          ("did_document", field "did_document" table_bundle) ].

(** * Properties *)

(** A case for each of the 256 characters. *)
Ltac each_char c := destruct c as [[] [] [] [] [] [] [] []].

(** ** Hexadecimal text and bytes *)

Lemma unhex_byte (x : byte) (s : string) :
  unhexlify (String (hexdigit (Byte.to_N x / 16))
               (String (hexdigit (Byte.to_N x mod 16)) s))
  = match unhexlify s with Some b => Some (x :: b) | None => None end.
Proof.
  destruct x; cbn; destruct (unhexlify s); reflexivity.
Qed.

Lemma unhexlify_bytes_hex (b : list byte) : unhexlify (bytes_hex b) = Some b.
Proof.
  induction b as [|x b IH]; [reflexivity|].
  cbn [bytes_hex]. rewrite unhex_byte, IH. reflexivity.
Qed.

Lemma length_bytes_hex (b : list byte) :
  String.length (bytes_hex b) = (2 * List.length b)%nat.
Proof.
  induction b as [|x b IH]; cbn [bytes_hex String.length List.length]; lia.
Qed.

Lemma bytes_hex_no_prefix (b : list byte) :
  startswith "0x" (bytes_hex b) || startswith "0X" (bytes_hex b) = false.
Proof.
  destruct b as [|x b]; [reflexivity|].
  cbn [bytes_hex]. destruct x; reflexivity.
Qed.

Lemma odd_double (n : nat) : Nat.odd (2 * n) = false.
Proof.
  rewrite <- Nat.negb_even, Nat.even_mul. reflexivity.
Qed.

Lemma substring_all (s : string) : String.substring 0 (String.length s) s = s.
Proof.
  induction s as [|c s IH]; [reflexivity|].
  cbn [String.length String.substring]. now rewrite IH.
Qed.

Lemma startswith_0x (s : string) : startswith "0x" ("0x" ++ s) = true.
Proof. reflexivity. Qed.

(** [HexBytes(b.hex())] is [b], with or without the [0x] of [hex()]. *)
Lemma hexstr_to_bytes_hex (prefixed : bool) (b : list byte) :
  hexstr_to_bytes ((if prefixed then "0x" else "") ++ bytes_hex b) = Some b.
Proof.
  unfold hexstr_to_bytes. destruct prefixed.
  - rewrite startswith_0x.
    cbn [String.append orb String.length Nat.sub String.substring].
    rewrite Nat.sub_0_r, substring_all, length_bytes_hex.
    replace (S (S (2 * List.length b))) with (2 * (1 + List.length b))%nat by lia.
    rewrite odd_double. apply unhexlify_bytes_hex.
  - cbn [String.append]. rewrite bytes_hex_no_prefix, length_bytes_hex, odd_double.
    apply unhexlify_bytes_hex.
Qed.

(** ** Dicts in insertion order *)

Lemma lookup_head (k : string) (v : value) (d : dict) : lookup k ((k, v) :: d) = Some v.
Proof. cbn [lookup]. now rewrite String.eqb_refl. Qed.

Lemma lookup_tail (k k' : string) (v : value) (d : dict) :
  k <> k' -> lookup k ((k', v) :: d) = lookup k d.
Proof.
  intros H. cbn [lookup]. destruct (String.eqb_spec k k'); [contradiction|reflexivity].
Qed.

(** Two dicts with the same keys in the same order and the same value under
    each key are the same association list. *)
Lemma dict_ext (d1 d2 : dict) :
  NoDup (keys d1) ->
  keys d1 = keys d2 ->
  (forall k, In k (keys d1) -> lookup k d1 = lookup k d2) ->
  d1 = d2.
Proof.
  revert d2. induction d1 as [|[k v] d1 IH]; intros [|[k' v'] d2] Hnd Hk Hl;
    try discriminate; [reflexivity|].
  cbn [keys map fst] in Hnd, Hk, Hl. injection Hk as <- Hk.
  inversion Hnd as [|? ? Hnotin Hnd']; subst.
  assert (Hv : v = v').
  { specialize (Hl k (or_introl eq_refl)). rewrite !lookup_head in Hl. congruence. }
  subst v'. f_equal. apply IH; [assumption|assumption|].
  intros k0 Hin. specialize (Hl k0 (or_intror Hin)).
  assert (k0 <> k) by (intros ->; contradiction).
  now rewrite !lookup_tail in Hl.
Qed.

(** ** Letter case *)

(** [str.lower] takes the capital of each letter to its small form and
    leaves the small form as it is. *)
Lemma lower_char_letters :
  forallb (fun p => Ascii.eqb (lower_char (fst p)) (snd p)
                    && Ascii.eqb (lower_char (snd p)) (snd p)) letters = true.
Proof. reflexivity. Qed.

Lemma same_letter_lower (x y : ascii) :
  same_letter x y = true -> lower_char x = lower_char y.
Proof.
  unfold same_letter. intros [H | H]%orb_true_iff.
  - now apply Ascii.eqb_eq in H as ->.
  - apply existsb_exists in H as (p & Hp & H).
    pose proof lower_char_letters as Hl. rewrite forallb_forall in Hl.
    specialize (Hl p Hp). apply andb_true_iff in Hl as [H1 H2].
    apply Ascii.eqb_eq in H1, H2.
    apply orb_true_iff in H as [H | H]; apply andb_true_iff in H as [Hx Hy];
      apply Ascii.eqb_eq in Hx, Hy; subst x y; congruence.
Qed.

(** Two texts that differ in letter case at most are one text after
    [str.lower]. *)
Lemma caseless_lower (a b : string) :
  caseless_eqb a b = true -> lower a = lower b.
Proof.
  revert b. induction a as [|x a IH]; intros [|y b]; try discriminate; [reflexivity|].
  cbn [caseless_eqb lower]. intros [Hx Hab]%andb_true_iff.
  now rewrite (same_letter_lower _ _ Hx), (IH _ Hab).
Qed.

(** On ASCII, [str.lower] identifies nothing else. *)
Lemma same_letter_table :
  forallb (fun x =>
    forallb (fun y =>
      Bool.eqb (Ascii.eqb (lower_char x) (lower_char y)) (same_letter x y))
      ascii_chars) ascii_chars = true.
Proof. vm_compute. reflexivity. Qed.

Lemma in_ascii_chars (x : ascii) : is_ascii x = true -> In x ascii_chars.
Proof.
  intros H. unfold ascii_chars. rewrite <- (ascii_nat_embedding x).
  apply in_map, in_seq. unfold is_ascii in H. apply N.ltb_lt in H.
  unfold nat_of_ascii. lia.
Qed.

Lemma lower_char_eqb_same_letter (x y : ascii) :
  is_ascii x = true -> is_ascii y = true ->
  Ascii.eqb (lower_char x) (lower_char y) = same_letter x y.
Proof.
  intros Hx%in_ascii_chars Hy%in_ascii_chars.
  pose proof same_letter_table as H. rewrite forallb_forall in H.
  specialize (H x Hx). rewrite forallb_forall in H. specialize (H y Hy).
  now apply Bool.eqb_prop in H.
Qed.

(** Equality after [str.lower] is, on ASCII, equality up to letter case. *)
Lemma lower_eqb_caseless (a b : string) :
  all_chars is_ascii a = true -> all_chars is_ascii b = true ->
  String.eqb (lower a) (lower b) = caseless_eqb a b.
Proof.
  revert b. induction a as [|x a IH]; intros [|y b]; try reflexivity.
  cbn [all_chars]. intros [Hx Ha]%andb_true_iff [Hy Hb]%andb_true_iff.
  cbn [lower String.eqb caseless_eqb].
  rewrite (lower_char_eqb_same_letter _ _ Hx Hy), (IH _ Ha Hb).
  destruct (same_letter x y); reflexivity.
Qed.

Lemma all_chars_impl (p q : ascii -> bool) (s : string) :
  (forall c, p c = true -> q c = true) ->
  all_chars p s = true -> all_chars q s = true.
Proof.
  intros Hpq. induction s as [|c s IH]; [reflexivity|].
  cbn [all_chars]. intros [Hc Hs]%andb_true_iff.
  now rewrite (Hpq _ Hc), (IH Hs).
Qed.

Lemma hexdigit_is_ascii (c : ascii) : is_hexdigit c = true -> is_ascii c = true.
Proof. each_char c; intros H; solve [reflexivity | discriminate H]. Qed.

(** ** Colons *)

Lemma hexdigit_not_colon (c : ascii) : is_hexdigit c = true -> Ascii.eqb c ":" = false.
Proof.
  each_char c; intros H; solve [reflexivity | discriminate H].
Qed.

Lemma hexdigits_no_colon (s : string) : all_chars is_hexdigit s = true -> has_colon s = false.
Proof.
  induction s as [|c s IH]; [reflexivity|].
  cbn [all_chars has_colon]. intros [Hc Hs]%andb_prop.
  now rewrite (hexdigit_not_colon c Hc), IH.
Qed.

Lemma hex_address_no_colon (a : string) : is_hex_address a = true -> has_colon a = false.
Proof.
  destruct a as [|c0 a]; [discriminate|].
  each_char c0; try discriminate.
  destruct a as [|c1 digits]; [discriminate|].
  each_char c1; try discriminate.
  cbn [is_hex_address]. intros [_ Hd]%andb_prop.
  cbn [has_colon]. now rewrite (hexdigits_no_colon _ Hd).
Qed.

Lemma after_last_colon_did (a : string) :
  has_colon a = false -> after_last_colon (did_of a) = a.
Proof.
  intros H. unfold did_of. cbn. rewrite H. reflexivity.
Qed.

(** ** Keccak-256 and EIP-55 *)

Lemma length_keccak256 (m : list byte) : List.length (keccak256 m) = 32%nat.
Proof.
  unfold keccak256, squeeze. now rewrite length_map, length_seq.
Qed.

(** The hash of the empty message, and the two addresses EIP-55 gives as
    examples. *)
Lemma keccak256_empty :
  bytes_hex (keccak256 [])
  = "c5d2460186f7233c927e7db2dcc703c0e500b653ca82273b7bfad8045d85a470".
Proof. vm_compute. reflexivity. Qed.

Lemma to_checksum_address_examples :
  to_checksum_address (unhex "5aaeb6053f3e94c9b9a09f33669435e7ef1beaed")
  = "0x5aAeb6053F3E94C9b9A09f33669435E7Ef1BeAed"
  /\ to_checksum_address (unhex "fb6916095ca1df60bb79ce92ce3ea74c37c5d359")
     = "0xfB6916095ca1df60bB79Ce92cE3Ea74c37c5d359".
Proof. split; vm_compute; reflexivity. Qed.

Lemma small_hexdigit_cases (c : ascii) (capital : bool) :
  is_small_hexdigit c = true ->
  is_hexdigit (if capital then upper_char c else c) = true
  /\ lower_char (if capital then upper_char c else c) = c.
Proof.
  each_char c; intros H; try discriminate H;
    destruct capital; split; reflexivity.
Qed.

Lemma bytes_hex_small (b : list byte) : all_chars is_small_hexdigit (bytes_hex b) = true.
Proof.
  induction b as [|x b IH]; [reflexivity|].
  cbn [bytes_hex all_chars]. rewrite IH. destruct x; reflexivity.
Qed.

Lemma small_hexdigits_plain (s : string) :
  all_chars is_small_hexdigit s = true ->
  all_chars is_hexdigit s = true /\ lower s = s.
Proof.
  induction s as [|c s IH]; [split; reflexivity|].
  cbn [all_chars lower]. intros [Hc Hs]%andb_prop.
  destruct (small_hexdigit_cases c false Hc) as [Hd Hl].
  destruct (IH Hs) as [IHd IHl]. now rewrite Hd, Hl, IHd, IHl.
Qed.

Lemma checksum_case_spec (norm hash : string) :
  all_chars is_small_hexdigit norm = true ->
  String.length (checksum_case norm hash) = String.length norm
  /\ all_chars is_hexdigit (checksum_case norm hash) = true
  /\ lower (checksum_case norm hash) = norm.
Proof.
  revert hash. induction norm as [|c norm IH]; intros hash H.
  - destruct hash; repeat split; reflexivity.
  - destruct hash as [|h hash].
    + cbn [checksum_case]. split; [reflexivity|]. now apply small_hexdigits_plain.
    + cbn [all_chars] in H. apply andb_prop in H as [Hc Hn].
      cbn [checksum_case String.length all_chars lower].
      destruct (IH hash Hn) as (IHlen & IHd & IHl).
      destruct (small_hexdigit_cases c (7 <? nibble h)%N Hc) as [Hd Hl].
      now rewrite IHlen, Hd, IHd, Hl, IHl.
Qed.

(** The EIP-55 rendering of 20 bytes is a hex address, and [str.lower]
    takes it to the plain lowercase rendering. *)
Lemma to_checksum_address_spec (raw : list byte) :
  List.length raw = 20%nat ->
  is_hex_address (to_checksum_address raw) = true
  /\ lower (to_checksum_address raw) = "0x" ++ bytes_hex raw.
Proof.
  intros Hlen. unfold to_checksum_address.
  destruct (checksum_case_spec (bytes_hex raw)
              (bytes_hex (keccak256 (utf8 (bytes_hex raw)))) (bytes_hex_small raw))
    as (Hl & Hd & Hlow).
  split.
  - cbn [String.append is_hex_address].
    now rewrite Hl, length_bytes_hex, Hlen, Hd.
  - cbn [String.append lower]. now rewrite Hlow.
Qed.

Lemma lower_to_checksum_address (raw : list byte) :
  lower (to_checksum_address raw) = "0x" ++ bytes_hex raw.
Proof.
  unfold to_checksum_address. cbn [String.append lower].
  destruct (checksum_case_spec (bytes_hex raw)
              (bytes_hex (keccak256 (utf8 (bytes_hex raw)))) (bytes_hex_small raw))
    as (_ & _ & ->).
  reflexivity.
Qed.

Lemma to_checksum_address_ascii (raw : list byte) :
  all_chars is_ascii (to_checksum_address raw) = true.
Proof.
  unfold to_checksum_address. cbn [String.append all_chars].
  destruct (checksum_case_spec (bytes_hex raw)
              (bytes_hex (keccak256 (utf8 (bytes_hex raw)))) (bytes_hex_small raw))
    as (_ & Hd & _).
  apply (all_chars_impl _ _ _ hexdigit_is_ascii Hd).
Qed.

(** ** The serialization *)

Lemma value_nested_ind (P : value -> Prop) :
  P VNone ->
  (forall b, P (VBool b)) ->
  (forall n, P (VInt n)) ->
  (forall s, P (VStr s)) ->
  (forall l, Forall P l -> P (VList l)) ->
  (forall d, Forall (fun kv => P (snd kv)) d -> P (VDict d)) ->
  forall v, P v.
Proof.
  intros HN HB HI HS HL HD. fix IH 1. intros [|b|n|s|l|d].
  - exact HN.
  - apply HB.
  - apply HI.
  - apply HS.
  - apply HL. induction l as [|x l IHl]; constructor; [apply IH|exact IHl].
  - apply HD. induction d as [|[k x] d IHd]; constructor; [apply IH|exact IHd].
Qed.

Lemma all_chars_app (p : ascii -> bool) (a b : string) :
  all_chars p (a ++ b) = all_chars p a && all_chars p b.
Proof.
  induction a as [|c a IH]; [reflexivity|].
  cbn [String.append all_chars]. now rewrite IH, andb_assoc.
Qed.

Lemma escape_char_printable (c : ascii) : all_chars is_printable (escape_char c) = true.
Proof. each_char c; reflexivity. Qed.

Lemma escape_printable (s : string) : all_chars is_printable (escape s) = true.
Proof.
  induction s as [|c s IH]; [reflexivity|].
  cbn [escape]. now rewrite all_chars_app, escape_char_printable, IH.
Qed.

Lemma encode_basestring_ascii_printable (s : string) :
  all_chars is_printable (encode_basestring_ascii s) = true.
Proof.
  unfold encode_basestring_ascii. cbn [all_chars].
  rewrite all_chars_app, escape_printable. reflexivity.
Qed.

Lemma uint_digits (d : Decimal.uint) :
  all_chars is_digit (NilEmpty.string_of_uint d) = true.
Proof. induction d; cbn; auto. Qed.

Lemma digit_printable (s : string) :
  all_chars is_digit s = true -> all_chars is_printable s = true.
Proof.
  induction s as [|c s IH]; [reflexivity|].
  cbn [all_chars]. intros [Hc Hs]%andb_prop. rewrite (IH Hs), andb_true_r.
  revert Hc. each_char c; intros Hc; solve [reflexivity | discriminate Hc].
Qed.

Lemma nilzero_digits (d : Decimal.uint) :
  all_chars is_digit (NilZero.string_of_uint d) = true
  /\ NilZero.string_of_uint d <> "".
Proof.
  destruct d; cbn [NilZero.string_of_uint NilEmpty.string_of_uint all_chars];
    (split; [|discriminate]); rewrite ?uint_digits; reflexivity.
Qed.

Lemma int_repr_printable (n : Z) : all_chars is_printable (int_repr n) = true.
Proof.
  unfold int_repr, NilZero.string_of_int.
  destruct (Z.to_int n) as [d|d]; cbn [all_chars];
    rewrite ?(digit_printable _ (proj1 (nilzero_digits d))); reflexivity.
Qed.

Lemma join_printable (sep : string) (parts : list string) :
  all_chars is_printable sep = true ->
  Forall (fun p => all_chars is_printable p = true) parts ->
  all_chars is_printable (join sep parts) = true.
Proof.
  intros Hsep H. induction H as [|p parts Hp _ IH]; [reflexivity|].
  destruct parts as [|q parts]; [exact Hp|].
  change (join sep (p :: q :: parts)) with (p ++ sep ++ join sep (q :: parts)).
  now rewrite !all_chars_app, Hp, Hsep, IH.
Qed.

Lemma dumps_printable (v : value) : all_chars is_printable (dumps v) = true.
Proof.
  induction v as [|b|n|s|l IH|d IH] using value_nested_ind.
  - reflexivity.
  - destruct b; reflexivity.
  - apply int_repr_printable.
  - apply encode_basestring_ascii_printable.
  - cbn [dumps]. rewrite !all_chars_app, join_printable; [reflexivity|reflexivity|].
    rewrite Forall_map. exact IH.
  - cbn [dumps]. rewrite !all_chars_app, join_printable; [reflexivity|reflexivity|].
    rewrite Forall_map. revert IH. apply Forall_impl. intros [k x] Hx.
    cbn [fst snd] in *.
    now rewrite !all_chars_app, encode_basestring_ascii_printable, Hx.
Qed.

Lemma utf8_printable (s : string) :
  all_chars is_printable s = true ->
  utf8 s = map byte_of_ascii (list_ascii_of_string s).
Proof.
  induction s as [|c s IH]; [reflexivity|].
  cbn [all_chars utf8 list_ascii_of_string map]. intros [Hc Hs]%andb_prop.
  rewrite (IH Hs). f_equal.
  revert Hc. each_char c; intros Hc; solve [reflexivity | discriminate Hc].
Qed.

Lemma length_chars (s : string) :
  List.length (list_ascii_of_string s) = String.length s.
Proof.
  induction s as [|c s IH]; [reflexivity|].
  cbn [list_ascii_of_string List.length String.length]. now rewrite IH.
Qed.

(** ** Reading the text back *)

Lemma append_assoc (a b c : string) : (a ++ b) ++ c = a ++ b ++ c.
Proof.
  induction a as [|x a IH]; [reflexivity|]. cbn [String.append]. now rewrite IH.
Qed.

Lemma append_empty (a : string) : a ++ "" = a.
Proof.
  induction a as [|x a IH]; [reflexivity|]. cbn [String.append]. now rewrite IH.
Qed.

Lemma unescape_head_escape_char (c : ascii) (rest : string) :
  unescape_head (escape_char c ++ rest) = Some (c, rest).
Proof. each_char c; reflexivity. Qed.

Lemma escape_char_head (c : ascii) (rest : string) :
  exists h t, escape_char c ++ rest = String h t /\ h <> dquote.
Proof.
  each_char c; cbn; eexists _, _; (split; [reflexivity|discriminate]).
Qed.

(** Escaped text ends at the first quotation mark that is not escaped. *)
Lemma escape_delimited (a b r1 r2 : string) :
  escape a ++ String dquote r1 = escape b ++ String dquote r2 ->
  a = b /\ r1 = r2.
Proof.
  revert b. induction a as [|x a IH]; intros [|y b]; cbn [escape String.append].
  - now intros [= ->].
  - rewrite append_assoc. intros H.
    destruct (escape_char_head y (escape b ++ String dquote r2)) as (h & t & Hy & Hh).
    rewrite Hy in H. now injection H as <- _.
  - rewrite append_assoc. intros H.
    destruct (escape_char_head x (escape a ++ String dquote r1)) as (h & t & Hx & Hh).
    rewrite Hx in H. now injection H as -> _.
  - rewrite !append_assoc. intros H.
    apply (f_equal unescape_head) in H.
    rewrite !unescape_head_escape_char in H. injection H as -> H.
    destruct (IH _ H) as [-> ->]. now split.
Qed.

Lemma encode_basestring_ascii_delimited (a b r1 r2 : string) :
  encode_basestring_ascii a ++ r1 = encode_basestring_ascii b ++ r2 ->
  a = b /\ r1 = r2.
Proof.
  unfold encode_basestring_ascii. cbn [String.append].
  rewrite !append_assoc. cbn [String.append]. intros [= H].
  exact (escape_delimited _ _ _ _ H).
Qed.

(** A run of digits ends where the digits end. *)
Lemma digits_delimited (s1 s2 r1 r2 : string) :
  all_chars is_digit s1 = true ->
  all_chars is_digit s2 = true ->
  starts_with_digit r1 = false ->
  starts_with_digit r2 = false ->
  s1 ++ r1 = s2 ++ r2 ->
  s1 = s2 /\ r1 = r2.
Proof.
  revert s2. induction s1 as [|c s1 IH]; intros [|c' s2] H1 H2 Hr1 Hr2;
    cbn [String.append all_chars] in *.
  - now intros ->.
  - intros ->. apply andb_prop in H2 as [Hc _]. cbn in Hr1. congruence.
  - intros <-. apply andb_prop in H1 as [Hc _]. cbn in Hr2. congruence.
  - intros [= -> H]. apply andb_prop in H1 as [_ H1]. apply andb_prop in H2 as [_ H2].
    destruct (IH _ H1 H2 Hr1 Hr2 H) as [-> ->]. now split.
Qed.

Lemma to_int_not_nil (n : Z) :
  Z.to_int n <> Decimal.Pos Decimal.Nil /\ Z.to_int n <> Decimal.Neg Decimal.Nil.
Proof.
  destruct n as [|p|p]; cbn [Z.to_int]; split; try discriminate;
    intros [= H]; exact (DecimalPos.Unsigned.to_uint_nonnil p H).
Qed.

Lemma int_repr_injective (n1 n2 : Z) : int_repr n1 = int_repr n2 -> n1 = n2.
Proof.
  unfold int_repr. intros H. apply (f_equal NilZero.int_of_string) in H.
  destruct (to_int_not_nil n1) as [Ha Hb], (to_int_not_nil n2) as [Hc Hd].
  rewrite !NilZero.isi in H by assumption. injection H as H.
  apply (f_equal Z.of_int) in H. now rewrite !DecimalZ.of_to in H.
Qed.

Lemma nilzero_head (d : Decimal.uint) :
  exists c t, NilZero.string_of_uint d = String c t /\ is_digit c = true.
Proof.
  destruct d; cbn; eexists _, _; (split; [reflexivity|reflexivity]).
Qed.

Lemma int_repr_delimited (n1 n2 : Z) (r1 r2 : string) :
  starts_with_digit r1 = false ->
  starts_with_digit r2 = false ->
  int_repr n1 ++ r1 = int_repr n2 ++ r2 ->
  n1 = n2 /\ r1 = r2.
Proof.
  intros Hr1 Hr2 H.
  assert (int_repr n1 = int_repr n2 /\ r1 = r2) as [Hn ->].
  { revert H. unfold int_repr, NilZero.string_of_int.
    destruct (Z.to_int n1) as [d1|d1], (Z.to_int n2) as [d2|d2];
      destruct (nilzero_digits d1) as [D1 _], (nilzero_digits d2) as [D2 _];
      destruct (nilzero_head d1) as (c1 & t1 & E1 & C1),
               (nilzero_head d2) as (c2 & t2 & E2 & C2);
      cbn [String.append]; intros H.
    - now apply digits_delimited.
    - rewrite E1 in H. cbn [String.append] in H. injection H as -> _. discriminate C1.
    - rewrite E2 in H. cbn [String.append] in H. injection H as <- _. discriminate C2.
    - injection H as H. destruct (digits_delimited _ _ _ _ D1 D2 Hr1 Hr2 H) as [-> ->].
      now split. }
  split; [now apply int_repr_injective|reflexivity].
Qed.

Lemma dumps_head (v : value) (r : string) :
  exists c t, dumps v ++ r = String c t /\ value_head v c = true.
Proof.
  destruct v as [|[]|n|s|l|d]; cbn [dumps value_head String.append];
    try (eexists _, _; split; reflexivity).
  unfold int_repr, NilZero.string_of_int.
  destruct (Z.to_int n) as [u|u].
  - destruct (nilzero_head u) as (c & t & -> & Hc). cbn [String.append].
    eexists _, _. split; [reflexivity|]. now rewrite Hc, orb_true_r.
  - cbn [String.append]. eexists _, _. split; reflexivity.
Qed.

(** Two values whose texts begin with the same character are of one kind. *)
Lemma value_head_kind (v1 v2 : value) (c : ascii) :
  value_head v1 c = true ->
  value_head v2 c = true ->
  match v1, v2 with
  | VNone, VNone | VInt _, VInt _ | VStr _, VStr _
  | VList _, VList _ | VDict _, VDict _ => True
  | VBool a, VBool b => a = b
  | _, _ => False
  end.
Proof.
  destruct v1 as [|[]|n1|s1|l1|d1], v2 as [|[]|n2|s2|l2|d2];
    cbn [value_head]; intros H1 H2; try exact I; try reflexivity;
    try (apply Ascii.eqb_eq in H1; subst c; discriminate H2);
    try (apply Ascii.eqb_eq in H2; subst c; discriminate H1).
Qed.

Lemma join_cons (sep p : string) (ps : list string) (t : string) :
  join sep (p :: ps) ++ t
  = p ++ match ps with
         | [] => t
         | _ :: _ => sep ++ join sep ps ++ t
         end.
Proof.
  destruct ps as [|q ps]; [reflexivity|].
  change (join sep (p :: q :: ps)) with (p ++ sep ++ join sep (q :: ps)).
  now rewrite !append_assoc.
Qed.

(** The items of a list or dict are read back one after the other, up to
    the closing bracket. *)
Lemma join_delimited {A : Type} (item : A -> string) (close : ascii) (xs : list A) :
  is_digit close = false ->
  close <> ","%char ->
  (forall y t, exists c t', item y ++ t = String c t' /\ c <> close) ->
  Forall (fun x => forall y t1 t2,
                     starts_with_digit t1 = false ->
                     starts_with_digit t2 = false ->
                     item x ++ t1 = item y ++ t2 ->
                     x = y /\ t1 = t2) xs ->
  forall ys r1 r2,
    join ", " (map item xs) ++ String close r1
    = join ", " (map item ys) ++ String close r2 ->
    xs = ys /\ r1 = r2.
Proof.
  intros Hclose Hcomma Hhead HF.
  induction HF as [|x xs Hx _ IH]; intros [|y ys] r1 r2; cbn [map].
  - cbn [join String.append]. now intros [= ->].
  - rewrite join_cons. intros H.
    change (join ", " [] ++ String close r1) with (String close r1) in H.
    match type of H with
    | _ = item y ++ ?t => destruct (Hhead y t) as (c & t' & Hy & Hc)
    end.
    rewrite Hy in H. injection H as -> _. contradiction.
  - rewrite join_cons. intros H.
    change (join ", " [] ++ String close r2) with (String close r2) in H.
    match type of H with
    | item x ++ ?t = _ => destruct (Hhead x t) as (c & t' & Hxh & Hc)
    end.
    rewrite Hxh in H. injection H as <- _. contradiction.
  - rewrite !join_cons. intros H. apply Hx in H as [<- H].
    + destruct xs as [|x' xs], ys as [|y' ys]; cbn [map String.append] in H.
      * injection H as ->. now split.
      * injection H as -> _. contradiction.
      * injection H as <- _. contradiction.
      * injection H as H. destruct (IH (y' :: ys) r1 r2 H) as [-> ->]. now split.
    + destruct (map item xs); [exact Hclose|reflexivity].
    + destruct (map item ys); [exact Hclose|reflexivity].
Qed.

Lemma value_head_not_bracket (v : value) : value_head v "]" = false.
Proof. destruct v as [|[]| | | |]; reflexivity. Qed.

(** The text of a value, followed by anything that is no digit, is the text
    of no other value. *)
Lemma dumps_delimited (v1 : value) :
  forall v2 r1 r2,
    starts_with_digit r1 = false ->
    starts_with_digit r2 = false ->
    dumps v1 ++ r1 = dumps v2 ++ r2 ->
    v1 = v2 /\ r1 = r2.
Proof.
  induction v1 as [|b1|n1|s1|l1 IH|d1 IH] using value_nested_ind;
    intros v2 r1 r2 Hr1 Hr2 H.
  all: match type of H with
       | dumps ?a ++ _ = _ =>
           destruct (dumps_head a r1) as (c1 & t1 & E1 & K1);
           destruct (dumps_head v2 r2) as (c2 & t2 & E2 & K2);
           assert (c1 = c2) by congruence; subst c2;
           pose proof (value_head_kind _ _ _ K1 K2) as Hkind
       end.
  all: destruct v2 as [|b2|n2|s2|l2|d2]; try contradiction; clear E1 E2 K1 K2 Hkind c1 t1 t2.
  - cbn [dumps String.append] in H. injection H as ->. now split.
  - assert (b1 = b2) as ->.
    { destruct b1, b2; cbn in H; congruence. }
    destruct b2; cbn [dumps String.append] in H; injection H as ->; now split.
  - cbn [dumps] in H. destruct (int_repr_delimited _ _ _ _ Hr1 Hr2 H) as [-> ->].
    now split.
  - cbn [dumps] in H. destruct (encode_basestring_ascii_delimited _ _ _ _ H) as [-> ->].
    now split.
  - cbn [dumps String.append] in H. rewrite !append_assoc in H.
    cbn [String.append] in H. injection H as H.
    apply (join_delimited dumps "]" l1) in H as [-> ->]; [now split|reflexivity|discriminate| |exact IH].
    intros y t. destruct (dumps_head y t) as (c & t' & E & K).
    exists c, t'. split; [exact E|]. intros ->.
    rewrite value_head_not_bracket in K. discriminate K.
  - cbn [dumps String.append] in H. rewrite !append_assoc in H.
    cbn [String.append] in H. injection H as H.
    apply (join_delimited
             (fun kv => encode_basestring_ascii (fst kv) ++ ": " ++ dumps (snd kv))
             "}" d1) in H as [-> ->]; [now split|reflexivity|discriminate| |].
    + intros y t. unfold encode_basestring_ascii. cbn [String.append].
      eexists _, _. split; [reflexivity|discriminate].
    + revert IH. apply Forall_impl. intros [k1 x1] Hx [k2 x2] t1 t2 Ht1 Ht2.
      cbn [fst snd] in *. rewrite !append_assoc. intros E.
      apply encode_basestring_ascii_delimited in E as [-> E].
      cbn [String.append] in E. injection E as E.
      destruct (Hx _ _ _ Ht1 Ht2 E) as [-> ->]. now split.
Qed.

Lemma dumps_injective (v1 v2 : value) : dumps v1 = dumps v2 -> v1 = v2.
Proof.
  intros H.
  apply (dumps_delimited v1 v2 "" ""); [reflexivity|reflexivity|].
  now rewrite !append_empty.
Qed.

Lemma byte_of_ascii_injective (a b : ascii) : byte_of_ascii a = byte_of_ascii b -> a = b.
Proof.
  intros H. apply (f_equal ascii_of_byte) in H.
  now rewrite !ascii_of_byte_of_ascii in H.
Qed.

Lemma chars_injective (s t : string) :
  map byte_of_ascii (list_ascii_of_string s) = map byte_of_ascii (list_ascii_of_string t) ->
  s = t.
Proof.
  revert t. induction s as [|c s IH]; intros [|c' t]; cbn; try discriminate; [reflexivity|].
  intros [= Hc H]. now rewrite (byte_of_ascii_injective _ _ Hc), (IH _ H).
Qed.

(** ** The two functions *)

Section Properties.

Context {E : EthAccount}.

Lemma HexBytes_key_hex (b : list byte) : HexBytes (VStr (key_hex b)) = Return b.
Proof.
  unfold key_hex, HexBytes. now rewrite hexstr_to_bytes_hex.
Qed.

Lemma HexBytes_signature_hex (b : list byte) :
  HexBytes (VStr (signature_hex b)) = Return b.
Proof.
  unfold signature_hex, HexBytes. now rewrite hexstr_to_bytes_hex.
Qed.

(** The document of lines 25-34, written out: reading
    [verification_method["id"]] never fails. *)
Lemma did_document_eq (a : string) :
  did_document a =
  Return
    [ ("@context", VList [ VStr "https://www.w3.org/ns/did/v1";
                           VStr "https://w3id.org/security/suites/secp256k1recovery-2020/v2" ]);
      ("id", VStr (did_of a));
      ("verificationMethod", VList [VDict (verification_method a)]);
      ("authentication", VList [VStr (did_of a ++ "#controller")]);
      ("assertionMethod", VList [VStr (did_of a ++ "#controller")]) ].
Proof. reflexivity. Qed.

Lemma did_document_of_run (urandom : list byte) :
  did_document (address (Account_create urandom)) = Return (document_of_run urandom).
Proof. reflexivity. Qed.

(** What the statements of lines 9-47 return when signing succeeds. *)
Lemma create_ethereum_did_body_eq (urandom : list byte) (sig : list byte) :
  ecdsa_sign (hash_eip191 (encode_defunct (message_of (document_of_run urandom))))
             (generate_key urandom) = Some sig ->
  create_ethereum_did_body urandom =
  Return (bundle_of (did_of (address (Account_create urandom)))
                    (document_of_run urandom)
                    (key_hex (generate_key urandom))
                    (address (Account_create urandom))
                    (signature_hex sig)).
Proof.
  intros Hsig. unfold create_ethereum_did_body, sign_message.
  rewrite did_document_of_run. cbn [bind key Account_create].
  rewrite HexBytes_key_hex. cbn [bind]. rewrite Hsig. reflexivity.
Qed.

(** Under the contract, a run signs its document and the signature recovers
    to the address of its key. *)
Lemma run_signature (L : EthAccountLaws E) (urandom : list byte) :
  exists sig,
    ecdsa_sign (hash_eip191 (encode_defunct (message_of (document_of_run urandom))))
               (generate_key urandom) = Some sig
    /\ List.length sig = 65%nat
    /\ ecdsa_recover (hash_eip191 (encode_defunct (message_of (document_of_run urandom)))) sig
       = Some (public_address (generate_key urandom)).
Proof.
  apply sign_recover, length_keccak256.
Qed.

(** [verify_did] on a bundle with its three fields in place. *)
Lemma verify_did_eq (did_info doc signature : value) (expected recovered : string) :
  subscript did_info "did_document" = Return doc ->
  subscript did_info "signature" = Return signature ->
  recover_message (encode_defunct (dumps doc)) signature = Return recovered ->
  subscript did_info "address" = Return (VStr expected) ->
  verify_did did_info = Return (String.eqb (lower recovered) (lower expected)).
Proof.
  intros Hdoc Hsig Hrec Hadr. unfold verify_did.
  rewrite Hdoc. cbn [bind]. rewrite Hsig. cbn [bind]. rewrite Hrec. cbn [bind].
  rewrite Hadr. reflexivity.
Qed.

Lemma recover_message_hex (m : SignableMessage) (sig raw : list byte) :
  List.length sig = 65%nat ->
  ecdsa_recover (hash_eip191 m) sig = Some raw ->
  recover_message m (VStr (signature_hex sig)) = Return (to_checksum_address raw).
Proof.
  intros Hlen Hrec. unfold recover_message.
  rewrite HexBytes_signature_hex. cbn [bind]. rewrite Hlen, Hrec. reflexivity.
Qed.

Lemma subscript_returns (obj v : value) (k : string) :
  subscript obj k = Return v -> exists d, obj = VDict d /\ lookup k d = Some v.
Proof.
  destruct obj as [| | | | |d]; try discriminate.
  cbn [subscript]. unfold getitem.
  destruct (lookup k d) as [v'|] eqn:Hk; [|discriminate].
  intros [= <-]. now exists d.
Qed.

Lemma recover_message_returns (m : SignableMessage) (signature : value) (a : string) :
  recover_message m signature = Return a ->
  exists sig raw,
    HexBytes signature = Return sig
    /\ List.length sig = 65%nat
    /\ ecdsa_recover (hash_eip191 m) sig = Some raw
    /\ a = to_checksum_address raw.
Proof.
  unfold recover_message.
  destruct (HexBytes signature) as [sig|] eqn:Hb; [|discriminate]. cbn [bind].
  destruct (Nat.eqb_spec (List.length sig) 65) as [Hlen|]; [|discriminate].
  destruct (ecdsa_recover _ sig) as [raw|] eqn:Hraw; [|discriminate].
  intros [= <-]. now exists sig, raw.
Qed.

(** With the parenthesis of line 13 closed the statements of lines 9-47
    would, under the contract of [eth_account], return a bundle on which
    [verify_did] returns [True]. *)
Lemma create_ethereum_did_body_verifies (L : EthAccountLaws E) (urandom : list byte) :
  exists bundle,
    create_ethereum_did_body urandom = Return bundle
    /\ verify_did bundle = Return true.
Proof.
  destruct (run_signature L urandom) as (sig & Hsig & Hlen & Hrec).
  pose proof (recover_message_hex _ _ _ Hlen Hrec) as Hmsg.
  eexists. split; [apply (create_ethereum_did_body_eq _ sig Hsig)|].
  erewrite verify_did_eq; [| reflexivity | reflexivity | exact Hmsg | reflexivity].
  cbn [address Account_create]. now rewrite String.eqb_refl.
Qed.

(** C1 (a defect of the code). Line 13 leaves one parenthesis open, so the
    module does not compile: [create_ethereum_did] ends in a [SyntaxError]
    for every run and returns no bundle to verify. *)
Theorem create_ethereum_did_never_returns (urandom : list byte) :
  open_brackets None 0 line_13 = 1%nat
  /\ compile_did_py = Raise SyntaxError
  /\ create_ethereum_did urandom = Raise SyntaxError
  /\ forall bundle, create_ethereum_did urandom <> Return bundle.
Proof.
  split; [reflexivity|]. split; [reflexivity|]. split; [reflexivity|].
  intros bundle. unfold create_ethereum_did.
  change compile_did_py with (@Raise unit SyntaxError). discriminate.
Qed.


(** C3. For the address [0x1111111111111111111111111111111111111111] the DID
    is [did:ethr:optimism:0x1111111111111111111111111111111111111111] and the
    verification method of the document has the [blockchainAccountId]
    [eip155:10:0x1111111111111111111111111111111111111111]. *)
Theorem optimism_scenario :
  did_of "0x1111111111111111111111111111111111111111"
  = "did:ethr:optimism:0x1111111111111111111111111111111111111111"
  /\ exists doc vm,
       did_document "0x1111111111111111111111111111111111111111" = Return doc
       /\ lookup "id" doc
          = Some (VStr "did:ethr:optimism:0x1111111111111111111111111111111111111111")
       /\ lookup "verificationMethod" doc = Some (VList [VDict vm])
       /\ lookup "blockchainAccountId" vm
          = Some (VStr "eip155:10:0x1111111111111111111111111111111111111111").
Proof.
  split; [reflexivity|].
  eexists _, _. rewrite did_document_eq.
  split; [reflexivity|]. split; [reflexivity|]. split; reflexivity.
Qed.

(** C4 (as amended). Under the contract of [eth_account], the text after the
    last colon of the DID of line 15 is the address of the created account
    in its EIP-55 rendering: [0x] and forty hexadecimal digits whose letters
    are capitals or not as the checksum has it.  The letter case is not
    changed; [str.lower] of the segment is the lowercase rendering of the 20
    bytes. *)
Theorem did_address_segment (L : EthAccountLaws E) (urandom : list byte) :
  after_last_colon (did_of (address (Account_create urandom)))
  = to_checksum_address (public_address (generate_key urandom))
  /\ is_hex_address (after_last_colon (did_of (address (Account_create urandom)))) = true
  /\ lower (after_last_colon (did_of (address (Account_create urandom))))
     = "0x" ++ bytes_hex (public_address (generate_key urandom)).
Proof.
  destruct (to_checksum_address_spec _ (address_length urandom)) as [Hhex Hlow].
  cbn [address Account_create].
  rewrite (after_last_colon_did _ (hex_address_no_colon _ Hhex)).
  split; [reflexivity|]. split; assumption.
Qed.

(** C5. On a bundle whose signature recovers to an address, [verify_did]
    returns [True] whenever the recovered and the stored address are equal
    up to letter case; and when the stored address is ASCII, it returns
    whether they are. *)
Theorem verify_did_caseless
  (did_info doc signature : value) (expected recovered : string) :
  subscript did_info "did_document" = Return doc ->
  subscript did_info "signature" = Return signature ->
  recover_message (encode_defunct (dumps doc)) signature = Return recovered ->
  subscript did_info "address" = Return (VStr expected) ->
  (caseless_eqb recovered expected = true -> verify_did did_info = Return true)
  /\ (all_chars is_ascii expected = true ->
      verify_did did_info = Return (caseless_eqb recovered expected)).
Proof.
  intros Hdoc Hsig Hrec Hadr.
  rewrite (verify_did_eq _ _ _ _ _ Hdoc Hsig Hrec Hadr). split.
  - intros H%caseless_lower. now rewrite H, String.eqb_refl.
  - intros He. apply recover_message_returns in Hrec as (sig & raw & _ & _ & _ & ->).
    now rewrite (lower_eqb_caseless _ _ (to_checksum_address_ascii raw) He).
Qed.

(** C6 (as amended). [create_ethereum_did] takes no network identifier: a
    call with any argument fails with [TypeError], a call with none is the
    function itself, and every document is built for the network [optimism]
    and the chain id 10. *)
Theorem network_is_fixed (arg : value) (args : list value) (urandom : list byte) (a : string) :
  create_ethereum_did_call (arg :: args) urandom = Raise TypeError
  /\ create_ethereum_did_call [] urandom = create_ethereum_did urandom
  /\ did_of a = "did:ethr:optimism:" ++ a
  /\ exists doc vm,
       did_document a = Return doc
       /\ lookup "verificationMethod" doc = Some (VList [VDict vm])
       /\ lookup "blockchainAccountId" vm = Some (VStr ("eip155:10:" ++ a)).
Proof.
  split; [reflexivity|]. split; [reflexivity|]. split; [reflexivity|].
  eexists _, _. rewrite did_document_eq.
  split; [reflexivity|]. split; reflexivity.
Qed.

Lemma recover_message_raises (m : SignableMessage) (signature : value) :
  malformed_signature signature
  \/ (exists sig, HexBytes signature = Return sig
                   /\ ecdsa_recover (hash_eip191 m) sig = None) ->
  recover_message m signature = Raise LibraryError.
Proof.
  unfold malformed_signature, recover_message.
  intros [H | (sig & Hsig & Hrec)].
  - destruct (HexBytes signature) as [b|e] eqn:Hb; cbn [bind].
    + apply Nat.eqb_neq in H. now rewrite H.
    + destruct signature as [| |n|s| |]; cbn in Hb;
        repeat match type of Hb with
               | context [if ?c then _ else _] => destruct c
               | context [match ?c with _ => _ end] => destruct c
               end; congruence.
  - rewrite Hsig. cbn [bind]. rewrite Hrec. now destruct (_ =? _)%nat.
Qed.

(** C7 (as amended). On a bundle whose signature is malformed, or from whose
    signature no address can be recovered, [verify_did] does not return
    [False]: the exception of the library leaves [verify_did].  It returns
    [False] only when an address is recovered and differs from the stored
    one in more than letter case. *)
Theorem verify_did_recovery_failure (did_info doc signature : value) :
  subscript did_info "did_document" = Return doc ->
  subscript did_info "signature" = Return signature ->
  (malformed_signature signature
   \/ exists sig, HexBytes signature = Return sig
                  /\ ecdsa_recover (hash_eip191 (encode_defunct (dumps doc))) sig = None) ->
  verify_did did_info = Raise LibraryError
  /\ (forall did_info',
        verify_did did_info' = Return false ->
        exists doc' signature' recovered expected,
          subscript did_info' "did_document" = Return doc'
          /\ subscript did_info' "signature" = Return signature'
          /\ recover_message (encode_defunct (dumps doc')) signature' = Return recovered
          /\ subscript did_info' "address" = Return (VStr expected)
          /\ caseless_eqb recovered expected = false).
Proof.
  intros Hdoc Hsig Hbad. split.
  - unfold verify_did. rewrite Hdoc. cbn [bind]. rewrite Hsig. cbn [bind].
    now rewrite (recover_message_raises _ _ Hbad).
  - intros did_info'. unfold verify_did.
    destruct (subscript did_info' "did_document") as [doc'|] eqn:Hd; [|discriminate].
    destruct (subscript did_info' "signature") as [signature'|] eqn:Hs; [|discriminate].
    cbn [bind].
    destruct (recover_message _ signature') as [recovered|] eqn:Hr; [|discriminate].
    destruct (subscript did_info' "address") as [expected|] eqn:Ha; [|discriminate].
    cbn [bind]. destruct expected as [| | |expected| |]; try discriminate.
    cbn [lower_method bind]. intros [= Hc].
    exists doc', signature', recovered, expected.
    repeat (split; [first [reflexivity | assumption]|]).
    destruct (caseless_eqb recovered expected) eqn:Hcl; [|reflexivity].
    apply caseless_lower in Hcl. rewrite Hcl, String.eqb_refl in Hc. discriminate.
Qed.


(** C9. The document built for any address has exactly one verification
    method, whose id is the DID followed by [#controller] and whose
    controller is the DID, and every id under [authentication] and
    [assertionMethod] is the id of a method under [verificationMethod]. *)
Theorem did_document_invariant (a : string) :
  exists doc,
    did_document a = Return doc
    /\ lookup "id" doc = Some (VStr (did_of a))
    /\ document_invariant doc.
Proof.
  eexists. rewrite did_document_eq. split; [reflexivity|]. split; [reflexivity|].
  exists (did_of a), (verification_method a),
    [VStr (did_of a ++ "#controller")], [VStr (did_of a ++ "#controller")].
  repeat (split; [reflexivity|]).
  intros ref [<- | [<- | []]]; left; reflexivity.
Qed.

(** C10. Two bundles with the same [did_document], [signature] and
    [address] get the same result from [verify_did], whatever else they
    hold. *)
Theorem verify_did_reads_three_fields (b1 b2 : value) :
  subscript b1 "did_document" = subscript b2 "did_document" ->
  subscript b1 "signature" = subscript b2 "signature" ->
  subscript b1 "address" = subscript b2 "address" ->
  verify_did b1 = verify_did b2.
Proof.
  intros Hdoc Hsig Hadr. unfold verify_did. now rewrite Hdoc, Hsig, Hadr.
Qed.

End Properties.


(** ** The table instance meets the contract *)

Lemma bytes_eqb_refl (b : list byte) : bytes_eqb b b = true.
Proof.
  induction b as [|x b IH]; [reflexivity|].
  cbn [bytes_eqb]. rewrite IH, andb_true_r.
  now apply Byte.byte_dec_lb.
Qed.

Lemma firstn_exact {A : Type} (n : nat) (l r : list A) :
  List.length l = n -> firstn n (l ++ r) = l.
Proof.
  intros <-. rewrite firstn_app, Nat.sub_diag, firstn_all. cbn. apply app_nil_r.
Qed.

Lemma skipn_exact {A : Type} (n : nat) (l r : list A) :
  List.length l = n -> skipn n (l ++ r) = r.
Proof.
  intros <-. rewrite skipn_app, Nat.sub_diag, skipn_all. reflexivity.
Qed.

Lemma table_key_length (urandom : list byte) : List.length (table_key urandom) = 32%nat.
Proof.
  unfold table_key.
  destruct (N.to_nat (byte_sum urandom mod 3)) as [|[|[|[|n]]]]; reflexivity.
Qed.

Lemma table_address_length (k : list byte) : List.length (table_address k) = 20%nat.
Proof.
  unfold table_address. cbn [find known_keys fst snd].
  repeat match goal with |- context [if ?c then _ else _] => destruct c end;
    reflexivity.
Qed.

Lemma table_sign_recover (h k : list byte) :
  List.length k = 32%nat ->
  List.length h = 32%nat ->
  exists sig,
    table_sign h k = Some sig
    /\ List.length sig = 65%nat
    /\ table_recover h sig = Some (table_address k).
Proof.
  intros Hk Hh. exists (k ++ h ++ [x1b])%list. unfold table_sign, table_recover.
  rewrite Hk. split; [reflexivity|].
  split; [rewrite !length_app, Hk, Hh; reflexivity|].
  assert (Hv : skipn 64 (k ++ h ++ [x1b])%list = [x1b]).
  { rewrite app_assoc. apply skipn_exact. rewrite length_app. lia. }
  rewrite Hv. change (existsb _ _) with true. cbv iota.
  rewrite (skipn_exact 32 k _ Hk), (firstn_exact 32 h _ Hh), bytes_eqb_refl.
  now rewrite (firstn_exact 32 k _ Hk).
Qed.

Lemma table_laws : EthAccountLaws TableAccount.
Proof.
  split; cbn [generate_key public_address ecdsa_sign ecdsa_recover TableAccount].
  - apply table_key_length.
  - intros u. apply table_address_length.
  - intros u h Hh. apply table_sign_recover; [apply table_key_length|exact Hh].
Qed.

(** ** The statements at work on the table instance *)

(** The key [b25c...b364] and its address are the example of the
    documentation of [Account.create]; the hash that is signed for its
    document is the one Python computes from [json.dumps] of the same
    document. *)
Lemma eip191_hash_example :
  address (Account_create (E := TableAccount) urandom0)
  = "0x5ce9454909639D2D17A3F753ce7d93fa0b9aB12E"
  /\ bytes_hex (hash_eip191 (encode_defunct
                 (message_of (document_of_run (E := TableAccount) urandom0))))
     = "01230b6a3ef0d15934803828f1529d2419457cf4466dc0615c0489caea73c535".
Proof. split; vm_compute; reflexivity. Qed.

(** The bundle of the table instance is the one the statements of lines
    9-47 make, and it verifies. *)
Lemma table_bundle_of_body :
  create_ethereum_did_body (E := TableAccount) urandom0 = Return table_bundle
  /\ verify_did (E := TableAccount) table_bundle = Return true.
Proof. split; vm_compute; reflexivity. Qed.



Lemma did_address_segment_witness :
  after_last_colon (did_of (address (Account_create (E := TableAccount) urandom0)))
  = to_checksum_address (table_address (table_key urandom0))
  /\ is_hex_address
       (after_last_colon (did_of (address (Account_create (E := TableAccount) urandom0))))
     = true
  /\ lower (after_last_colon (did_of (address (Account_create (E := TableAccount) urandom0))))
     = "0x" ++ bytes_hex (table_address (table_key urandom0)).
Proof.
  exact (did_address_segment table_laws urandom0).
Defined.

(** C4, as stated, fails: the key [b25c...b364] has the address
    [5ce9...b12e], which EIP-55 renders as
    [0x5ce9454909639D2D17A3F753ce7d93fa0b9aB12E], and the text after the last
    colon of the DID of line 15 is that rendering with its capital
    letters. *)
Lemma did_address_segment_has_capitals :
  did_of (address (Account_create (E := TableAccount) urandom0))
  = "did:ethr:optimism:0x5ce9454909639D2D17A3F753ce7d93fa0b9aB12E"
  /\ after_last_colon (did_of (address (Account_create (E := TableAccount) urandom0)))
     = "0x5ce9454909639D2D17A3F753ce7d93fa0b9aB12E"
  /\ is_lower (after_last_colon
                 (did_of (address (Account_create (E := TableAccount) urandom0))))
     = false.
Proof. repeat split; vm_compute; reflexivity. Qed.

(** The recovered address has capitals, the stored one has none: the two
    differ as texts, agree up to letter case, and [verify_did] says
    [True]. *)
Lemma verify_did_caseless_witness :
  String.eqb "0x5ce9454909639D2D17A3F753ce7d93fa0b9aB12E"
             "0x5ce9454909639d2d17a3f753ce7d93fa0b9ab12e" = false
  /\ caseless_eqb "0x5ce9454909639D2D17A3F753ce7d93fa0b9aB12E"
                  "0x5ce9454909639d2d17a3f753ce7d93fa0b9ab12e" = true
  /\ verify_did (E := TableAccount) lowercase_bundle = Return true.
Proof.
  split; [reflexivity|]. split; [reflexivity|].
  apply (verify_did_caseless (E := TableAccount) lowercase_bundle
           (field "did_document" table_bundle) (field "signature" table_bundle)
           "0x5ce9454909639d2d17a3f753ce7d93fa0b9ab12e"
           "0x5ce9454909639D2D17A3F753ce7d93fa0b9aB12E").
  - reflexivity.
  - reflexivity.
  - vm_compute. reflexivity.
  - reflexivity.
  - reflexivity.
Defined.

(** C6, as stated, fails: a call that passes an address and a network fails
    with [TypeError], for the unknown network as for [optimism]. *)
Lemma network_argument_is_a_TypeError :
  create_ethereum_did_call (E := TableAccount)
    [VStr ones_address; VStr "nonexistent-network"] urandom0 = Raise TypeError
  /\ create_ethereum_did_call (E := TableAccount)
       [VStr ones_address; VStr "optimism"] urandom0 = Raise TypeError
  /\ create_ethereum_did_call (E := TableAccount) [VStr "nonexistent-network"] urandom0
     = Raise TypeError.
Proof. repeat split; reflexivity. Qed.

Lemma verify_did_recovery_failure_witness :
  verify_did (E := TableAccount) garbled_bundle = Raise LibraryError
  /\ (forall did_info',
        verify_did (E := TableAccount) did_info' = Return false ->
        exists doc' signature' recovered expected,
          subscript did_info' "did_document" = Return doc'
          /\ subscript did_info' "signature" = Return signature'
          /\ recover_message (E := TableAccount)
               (encode_defunct (dumps doc')) signature' = Return recovered
          /\ subscript did_info' "address" = Return (VStr expected)
          /\ caseless_eqb recovered expected = false).
Proof.
  apply (verify_did_recovery_failure (E := TableAccount) garbled_bundle
           (field "did_document" table_bundle) (VStr "zz")).
  - reflexivity.
  - reflexivity.
  - left. vm_compute. exact I.
Defined.

(** C7, as stated, fails: with the signature [zz], which is no
    hexadecimal text, [verify_did] raises and returns no [False]. *)
Lemma verify_did_raises :
  malformed_signature (VStr "zz")
  /\ verify_did (E := TableAccount) garbled_bundle = Raise LibraryError
  /\ verify_did (E := TableAccount) garbled_bundle <> Return false.
Proof.
  split; [vm_compute; exact I|].
  split; [vm_compute; reflexivity|].
  vm_compute. discriminate.
Qed.

Lemma verify_did_reads_three_fields_witness :
  verify_did (E := TableAccount) table_bundle
  = verify_did (E := TableAccount) public_bundle.
Proof.
  apply (verify_did_reads_three_fields (E := TableAccount) table_bundle public_bundle);
    reflexivity.
Defined.

(** * Further properties of [verify_did], of [main] and of the signed text *)

Section Verification.

Context {E : EthAccount}.

(** X4. [verify_did] returns a boolean only for a dict that holds a
    document, a signature of 65 bytes from which an address is recovered,
    and an address that is text; the boolean says whether the stored address
    in small letters is [0x] and the lowercase hex of the 20 recovered
    bytes.  The letter case of the stored address, its EIP-55 checksum
    included, plays no part. *)
Theorem verify_did_result (did_info : value) (b : bool) :
  verify_did did_info = Return b ->
  exists d doc signature sig raw a,
    did_info = VDict d
    /\ lookup "did_document" d = Some doc
    /\ lookup "signature" d = Some signature
    /\ HexBytes signature = Return sig
    /\ List.length sig = 65%nat
    /\ ecdsa_recover (hash_eip191 (encode_defunct (dumps doc))) sig = Some raw
    /\ lookup "address" d = Some (VStr a)
    /\ b = String.eqb ("0x" ++ bytes_hex raw) (lower a).
Proof.
  unfold verify_did.
  destruct (subscript did_info "did_document") as [doc|] eqn:Hdoc; [|discriminate].
  destruct (subscript did_info "signature") as [signature|] eqn:Hsig; [|discriminate].
  cbn [bind].
  destruct (recover_message _ signature) as [recovered|] eqn:Hrec; [|discriminate].
  destruct (subscript did_info "address") as [expected|] eqn:Hadr; [|discriminate].
  cbn [bind]. destruct expected as [| | |a| |]; try discriminate.
  cbn [lower_method bind]. intros [= <-].
  apply subscript_returns in Hdoc as (d & -> & Hdoc).
  apply subscript_returns in Hsig as (d' & [= <-] & Hsig).
  apply subscript_returns in Hadr as (d' & [= <-] & Hadr).
  apply recover_message_returns in Hrec as (sig & raw & Hb & Hlen & Hraw & ->).
  exists d, doc, signature, sig, raw, a.
  now rewrite lower_to_checksum_address.
Qed.

End Verification.

Section MainProperties.

Context {E : EthAccount}.
Variable repr : value -> string.
Variable exn_message : exn -> string.

(** What [main] has printed when it reaches the verification. *)
Lemma main_try_eq (did_info did address did_document : value) :
  subscript did_info "did" = Return did ->
  subscript did_info "address" = Return address ->
  subscript did_info "did_document" = Return did_document ->
  main_try repr (Return did_info) =
  let printed :=
    [ "Created DID: " ++ format repr did;
      "Ethereum Address: " ++ format repr address;
      String newline "DID Document:";
      dumps_indent 0 did_document ] in
  match verify_did did_info with
  | Return is_valid =>
      (List.app printed
         [String.append (String newline "DID Verification: ")
            (if is_valid then "Success" else "Failed")],
       Return did_info)
  | Raise e => (printed, Raise e)
  end.
Proof.
  intros Hd Ha Hdoc. unfold main_try. cbn [lift bind_out].
  rewrite Hd. cbn [lift bind_out print app].
  rewrite Ha. cbn [lift bind_out print app].
  rewrite Hdoc. cbn [lift bind_out print app].
  destruct (verify_did _) as [is_valid|e]; reflexivity.
Qed.

(** A run of the [try] that ends well has gone through the verification. *)
Lemma main_try_returns (created : result value) (printed : list string) (v : value) :
  main_try repr created = (printed, Return v) ->
  created = Return v
  /\ exists is_valid,
       verify_did v = Return is_valid
       /\ last printed ""
          = String newline "DID Verification: "
              ++ (if is_valid : bool then "Success" else "Failed").
Proof.
  unfold main_try. destruct created as [did_info|e]; [|discriminate].
  cbn [lift bind_out].
  destruct (subscript did_info "did") as [did|]; [|discriminate].
  cbn [lift bind_out print app].
  destruct (subscript did_info "address") as [address|]; [|discriminate].
  cbn [lift bind_out print app].
  destruct (subscript did_info "did_document") as [did_document|]; [|discriminate].
  cbn [lift bind_out print app].
  destruct (verify_did did_info) as [is_valid|] eqn:Hv; [|discriminate].
  cbn [lift bind_out print app]. intros [= <- <-].
  split; [reflexivity|]. exists is_valid. split; [exact Hv|reflexivity].
Qed.


End MainProperties.

(** ** The text that is signed *)

(** X9. Whatever the document holds, the text [json.dumps] gives for it is
    printable ASCII, so the message that is signed has one byte for each
    character of that text, and the length in the header of
    [encode_defunct] is the number of its characters. *)
Theorem signed_text_is_ascii (v : value) :
  all_chars is_printable (dumps v) = true
  /\ body (encode_defunct (dumps v)) = map byte_of_ascii (list_ascii_of_string (dumps v))
  /\ header (encode_defunct (dumps v))
     = (utf8 ("thereum Signed Message:" ++ String newline "")
          ++ utf8 (str_of_nat (String.length (dumps v))))%list.
Proof.
  pose proof (dumps_printable v) as Hp.
  split; [exact Hp|]. unfold encode_defunct. cbn [body header].
  rewrite (utf8_printable _ Hp). split; [reflexivity|].
  now rewrite length_map, length_chars.
Qed.

(** X10. On values whose [int]s are within what [json.dumps] writes (the
    text of a model value is a code point below 256 throughout, a key is
    text), [json.dumps] as the two functions call it loses nothing: two
    values with the same text are the same value, key by key and in the same
    order, and so are two values with the same signable message. *)
Theorem signed_text_determines_document (v1 v2 : value) :
  small_ints v1 = true ->
  small_ints v2 = true ->
  (dumps v1 = dumps v2 <-> v1 = v2)
  /\ (encode_defunct (dumps v1) = encode_defunct (dumps v2) <-> v1 = v2).
Proof.
  intros _ _. split; split; try (now intros ->).
  - apply dumps_injective.
  - intros H. apply (f_equal body) in H. unfold encode_defunct in H. cbn [body] in H.
    rewrite !(utf8_printable _ (dumps_printable _)) in H.
    apply dumps_injective, chars_injective, H.
Qed.

Section Runs.

Context {E : EthAccount}.

Lemma bytes_hex_injective (a b : list byte) : bytes_hex a = bytes_hex b -> a = b.
Proof.
  intros H. apply (f_equal unhexlify) in H.
  rewrite !unhexlify_bytes_hex in H. now injection H.
Qed.

Lemma to_checksum_address_injective (a b : list byte) :
  to_checksum_address a = to_checksum_address b -> a = b.
Proof.
  intros H. apply (f_equal lower) in H.
  rewrite !lower_to_checksum_address in H.
  cbn [String.append] in H. injection H as H. now apply bytes_hex_injective.
Qed.

(** X11. Two runs sign the same text exactly when their accounts have the
    same address, that is, when their keys have the same 20 address bytes:
    the signed text names the account, and nothing else of the run. *)
Theorem signed_text_names_the_account (u1 u2 : list byte) :
  (message_of (document_of_run u1) = message_of (document_of_run u2)
   <-> address (Account_create u1) = address (Account_create u2))
  /\ (address (Account_create u1) = address (Account_create u2)
      <-> public_address (generate_key u1) = public_address (generate_key u2)).
Proof.
  split; split.
  - unfold message_of, document_of_run.
    generalize (address (Account_create u1)), (address (Account_create u2)).
    intros a1 a2 H%dumps_injective. rewrite !did_document_eq in H.
    injection H. intros; assumption.
  - unfold document_of_run. now intros ->.
  - cbn [address Account_create]. apply to_checksum_address_injective.
  - cbn [address Account_create]. now intros ->.
Qed.

End Runs.

(** ** The further statements at work on the table instance *)

Lemma verify_did_result_witness :
  exists d doc signature sig raw a,
    lowercase_bundle = VDict d
    /\ lookup "did_document" d = Some doc
    /\ lookup "signature" d = Some signature
    /\ HexBytes signature = Return sig
    /\ List.length sig = 65%nat
    /\ ecdsa_recover (EthAccount := TableAccount)
         (hash_eip191 (encode_defunct (dumps doc))) sig = Some raw
    /\ lookup "address" d = Some (VStr a)
    /\ true = String.eqb ("0x" ++ bytes_hex raw) (lower a).
Proof.
  apply (verify_did_result (E := TableAccount) lowercase_bundle true).
  vm_compute. reflexivity.
Defined.

Lemma signed_text_determines_document_witness :
  (dumps (VDict ones_document) = dumps (VDict ones_document_swapped)
   <-> VDict ones_document = VDict ones_document_swapped)
  /\ (encode_defunct (dumps (VDict ones_document))
      = encode_defunct (dumps (VDict ones_document_swapped))
      <-> VDict ones_document = VDict ones_document_swapped).
Proof.
  apply (signed_text_determines_document (VDict ones_document) (VDict ones_document_swapped));
    reflexivity.
Defined.

(** [main] on the bundle of the table instance, and on the same bundle
    under another address. *)
Lemma main_on_table_bundle :
  snd (main (E := TableAccount) (fun _ => "") (fun _ => "") (Return table_bundle))
  = Some table_bundle
  /\ last (fst (main (E := TableAccount) (fun _ => "") (fun _ => "")
                  (Return table_bundle))) ""
     = String newline "DID Verification: Success"
  /\ last (fst (main (E := TableAccount) (fun _ => "") (fun _ => "")
                  (Return (bundle_of (did_of ones_address)
                             (document_of_run (E := TableAccount) urandom0)
                             "" ones_address
                             (signature_hex (E := TableAccount) table_signature))))) ""
     = String newline "DID Verification: Failed".
Proof. repeat split; vm_compute; reflexivity. Qed.
